(** * Centroid marking tool: a shallow embedding of [main.py]

    The program is a PyQt5 annotation tool.  An operator clicks polygon
    vertices on a zoomed image, a right click closes the polygon, the
    centroid of the polygon is computed with [cv2.moments] and stored per
    image, and the stored centroids are exported as CSV.

    Conventions of the embedding:
    - Python [int] is [Z]; Python [float] is idealised as an exact rational
      [Q] (every finite double is a rational; rounding of the individual
      floating-point operations is not modelled).
    - [self.annotations] is a Python [dict], whose iteration order is the
      insertion order of its keys: it is an association list.
    - The methods of [AnnotationTool] run in a small state/trace/exception
      monad [M]; dialogs, timers and image loads are recorded as events. *)

From Stdlib Require Import ZArith QArith Qminmax List String Ascii Bool Lia Lqa.
From Stdlib Require Import DecimalString.
Import ListNotations.

Local Open Scope Z_scope.

(* ================================================================== *)
(** * Python primitives *)

Module Py.

(** [int(q)] on a float: truncation toward zero. *)
Definition int (q : Q) : Z := Z.quot (Qnum q) (Zpos (Qden q)).

(** [str(n)] / [f"{n}"] on an int: decimal digits with a leading minus. *)
Definition str (n : Z) : string := NilZero.string_of_int (Z.to_int n).

(** Exceptions the modelled code can raise. *)
Inductive Exception : Type :=
| IndexError.

(** [l[i]]: negative indices count from the end, an index out of range
    raises [IndexError]. *)
Definition getitem {A : Type} (l : list A) (i : Z) : Exception + A :=
  let n := Z.of_nat (List.length l) in
  let j := if i <? 0 then i + n else i in
  if (j <? 0) || (n <=? j) then inl IndexError
  else match nth_error l (Z.to_nat j) with
       | Some a => inr a
       | None => inl IndexError
       end.

(** [p.rfind('/') + 1] as a count of characters, computed from the left:
    the length of the longest prefix that ends in a slash. *)
Fixpoint rfind_slash_succ (p : string) : nat :=
  match p with
  | EmptyString => 0%nat
  | String c rest =>
      match rfind_slash_succ rest with
      | O => if Ascii.eqb c "/"%char then 1%nat else 0%nat
      | S k => S (S k)
      end
  end.

Fixpoint drop (n : nat) (p : string) : string :=
  match n, p with
  | O, _ => p
  | S k, EmptyString => EmptyString
  | S k, String _ rest => drop k rest
  end.

(** [os.path.basename] (posixpath): [i = p.rfind('/') + 1; return p[i:]]. *)
Definition basename (p : string) : string := drop (rfind_slash_succ p) p.

(** [s.lower()] on the letters A-Z; the other characters stay. *)
Definition lower_char (c : ascii) : ascii :=
  let n := nat_of_ascii c in
  if (65 <=? n)%nat && (n <=? 90)%nat then ascii_of_nat (n + 32) else c.

Fixpoint lower (s : string) : string :=
  match s with
  | EmptyString => EmptyString
  | String c rest => String (lower_char c) (lower rest)
  end.

(** [s.endswith(suffix)] *)
Definition endswith (s suffix : string) : bool :=
  let n := String.length s in
  let m := String.length suffix in
  (m <=? n)%nat && String.eqb (substring (n - m) m s) suffix.

(** [s.endswith((t1, t2, ...))] *)
Definition endswith_any (s : string) (suffixes : list string) : bool :=
  existsb (endswith s) suffixes.

(** [os.path.join(a, b)] (posixpath) *)
Definition join (a b : string) : string :=
  if String.prefix "/" b then b
  else if String.eqb a "" || endswith a "/" then a ++ b
  else a ++ "/" ++ b.

End Py.

(* ================================================================== *)
(** * The library routine [cv2.moments] on a contour *)

Module Cv2.

(** The entries of the moments dictionary that the tool reads. *)
Record Moments : Type := mkMoments { m00 : Q; m10 : Q; m01 : Q }.

Definition zero_moments : Moments := mkMoments 0 0 0.

(** Accumulators of the contour loop. *)
Record Acc : Type := mkAcc { a00 : Q; a10 : Q; a01 : Q }.

(** One iteration of the contour loop for the edge from the previous vertex
    [(xi_1, yi_1)] to the vertex [(xi, yi)]. *)
Definition step (acc : Acc) (prev cur : Q * Q) : Acc :=
  let '(xi_1, yi_1) := prev in
  let '(xi, yi) := cur in
  let dxy := (xi_1 * yi - xi * yi_1)%Q in
  let xii_1 := (xi_1 + xi)%Q in
  let yii_1 := (yi_1 + yi)%Q in
  mkAcc (a00 acc + dxy)%Q (a10 acc + dxy * xii_1)%Q (a01 acc + dxy * yii_1)%Q.

Fixpoint loop (acc : Acc) (prev : Q * Q) (pts : list (Q * Q)) : Acc :=
  match pts with
  | [] => acc
  | cur :: rest => loop (step acc prev cur) cur rest
  end.

(** Green's formula over the closed path: the loop starts with the last
    vertex as the previous one.  The sums are scaled by [1/2] and [1/6]
    with the sign of the area sum, so that [m00] is not negative; when the
    area sum vanishes every moment is left at zero.  (The library compares
    the absolute area sum with [FLT_EPSILON]; the tool passes integer
    vertices, whose area sum is an integer, so the comparison is the test
    for zero.) *)
Definition moments (polygon : list (Q * Q)) : Moments :=
  match polygon with
  | [] => zero_moments
  | p0 :: _ =>
      let acc := loop (mkAcc 0 0 0) (last polygon p0) polygon in
      if Qeq_bool (a00 acc) 0 then zero_moments
      else
        let db1_2 := if Qle_bool 0 (a00 acc) then (1 # 2) else (- (1 # 2)) in
        let db1_6 := if Qle_bool 0 (a00 acc) then (1 # 6) else (- (1 # 6)) in
        mkMoments (a00 acc * db1_2)%Q (a10 acc * db1_6)%Q (a01 acc * db1_6)%Q
  end%Q.

End Cv2.

(* ================================================================== *)
(** * [AnnotationTool.calculate_centroid] *)

(** [np.array(points, dtype=np.float32)]: the integer vertices as floats
    (exact up to 2^24 in absolute value, far beyond pixel coordinates). *)
Definition np_array (points : list (Z * Z)) : list (Q * Q) :=
  map (fun p => (inject_Z (fst p), inject_Z (snd p))) points.

Definition calculate_centroid (points : list (Z * Z)) : Z * Z :=
  let polygon := np_array points in
  let moments := Cv2.moments polygon in
  if Qeq_bool (Cv2.m00 moments) 0 then (0, 0)
  else
    let cx := Py.int (Cv2.m10 moments / Cv2.m00 moments) in
    let cy := Py.int (Cv2.m01 moments / Cv2.m00 moments) in
    (cx, cy).

(* ================================================================== *)
(** * The Qt value types the tool uses *)

Definition Qlt_bool (x y : Q) : bool := negb (Qle_bool y x).

Module Qt.

Record QSize : Type := mkQSize { width : Z; height : Z }.

(** [QRectF(x, y, w, h)]; [QRectF()] is the null rectangle. *)
Record QRectF : Type := mkQRectF { x : Q; y : Q; w : Q; h : Q }.

Definition QRectF_null : QRectF := mkQRectF 0 0 0 0.

(** [QRectF::contains(QPointF)]: a point on an edge is contained, a
    rectangle without width or without height contains nothing. *)
Definition contains (rect : QRectF) (px py : Q) : bool :=
  let l := if Qlt_bool (w rect) 0 then (x rect + w rect)%Q else x rect in
  let r := if Qlt_bool (w rect) 0 then x rect else (x rect + w rect)%Q in
  if Qeq_bool l r then false
  else if Qlt_bool px l || Qlt_bool r px then false
  else
    let t := if Qlt_bool (h rect) 0 then (y rect + h rect)%Q else y rect in
    let b := if Qlt_bool (h rect) 0 then y rect else (y rect + h rect)%Q in
    if Qeq_bool t b then false
    else if Qlt_bool py t || Qlt_bool b py then false
    else true.

(** A pixmap is observed only through [isNull]. *)
Record QPixmap : Type := mkQPixmap { isNull : bool }.

(** [QPixmap.scaled(w, h, ...)] of a pixmap that is not null: the result is
    null exactly when the requested size is empty. *)
Definition scaled (scaled_width scaled_height : Z) : QPixmap :=
  mkQPixmap ((scaled_width <=? 0) || (scaled_height <=? 0)).

End Qt.

(* ================================================================== *)
(** * The annotation dictionary *)

(** The inner dictionary [{"centroids": [...]}] of an image. *)
Record Entry : Type := mkEntry { centroids : list (Z * Z) }.

(** A [dict] with string keys: an association list in insertion order, with
    at most one binding per key. *)
Module Dict.

Definition t (V : Type) : Type := list (string * V).

Definition keys {V : Type} (d : t V) : list string := map fst d.

Fixpoint get {V : Type} (d : t V) (k : string) : option V :=
  match d with
  | [] => None
  | (k', v) :: rest => if String.eqb k k' then Some v else get rest k
  end.

(** [k in d] *)
Definition mem {V : Type} (k : string) (d : t V) : bool :=
  match get d k with Some _ => true | None => false end.

(** [d[k] = v]: an existing key keeps its place, a new key goes last. *)
Fixpoint set {V : Type} (d : t V) (k : string) (v : V) : t V :=
  match d with
  | [] => [(k, v)]
  | (k', v') :: rest =>
      if String.eqb k k' then (k', v) :: rest else (k', v') :: set rest k v
  end.

Definition wf {V : Type} (d : t V) : Prop := NoDup (keys d).

End Dict.

(* ================================================================== *)
(** * The state of the two widgets *)

Record ZoomableLabel : Type := mkZoomableLabel {
  _zoom : Z;
  _image_rect : Qt.QRectF;
  pixmap : option Qt.QPixmap;          (* [None] until [setPixmap] *)
  size : Qt.QSize                      (* geometry given by the layout *)
}.

Record AnnotationTool : Type := mkAnnotationTool {
  image_paths : list string;
  current_index : Z;
  original_image : option (Z * Z);     (* [img.shape[:2]]: height, width *)
  original_width : Z;
  original_height : Z;
  scale_factor : Q;
  annotations : Dict.t Entry;
  current_polygon : list (Z * Z);
  current_centroid : option (Z * Z);
  auto_advance : bool;
  marked_count : Z;
  zoom_slider : Z;                     (* value of the slider, range 10..500 *)
  zoom_label : string;
  marked_label : string;
  image_label : ZoomableLabel
}.

(** [ZoomableLabel.__init__] *)
Definition ZoomableLabel_init (sz : Qt.QSize) : ZoomableLabel :=
  mkZoomableLabel 100 Qt.QRectF_null None sz.

(** [AnnotationTool.__init__], with the label at the size the layout gives. *)
Definition AnnotationTool_init (sz : Qt.QSize) : AnnotationTool :=
  mkAnnotationTool [] 0 None 0 0 1 [] [] None true 0 100 "100%"
    "已标注: 0/0" (ZoomableLabel_init sz).

(** Field assignments. *)
Definition set__zoom (v : Z) (l : ZoomableLabel) : ZoomableLabel :=
  mkZoomableLabel v (_image_rect l) (pixmap l) (size l).
Definition set__image_rect (v : Qt.QRectF) (l : ZoomableLabel) : ZoomableLabel :=
  mkZoomableLabel (_zoom l) v (pixmap l) (size l).
Definition setPixmap (v : Qt.QPixmap) (l : ZoomableLabel) : ZoomableLabel :=
  mkZoomableLabel (_zoom l) (_image_rect l) (Some v) (size l).

Definition set_image_paths (v : list string) (s : AnnotationTool) : AnnotationTool :=
  mkAnnotationTool v (current_index s) (original_image s) (original_width s)
    (original_height s) (scale_factor s) (annotations s) (current_polygon s)
    (current_centroid s) (auto_advance s) (marked_count s) (zoom_slider s)
    (zoom_label s) (marked_label s) (image_label s).
Definition set_current_index (v : Z) (s : AnnotationTool) : AnnotationTool :=
  mkAnnotationTool (image_paths s) v (original_image s) (original_width s)
    (original_height s) (scale_factor s) (annotations s) (current_polygon s)
    (current_centroid s) (auto_advance s) (marked_count s) (zoom_slider s)
    (zoom_label s) (marked_label s) (image_label s).
Definition set_original_image (img : Z * Z) (s : AnnotationTool) : AnnotationTool :=
  mkAnnotationTool (image_paths s) (current_index s) (Some img) (snd img)
    (fst img) (scale_factor s) (annotations s) (current_polygon s)
    (current_centroid s) (auto_advance s) (marked_count s) (zoom_slider s)
    (zoom_label s) (marked_label s) (image_label s).
Definition set_scale_factor (v : Q) (s : AnnotationTool) : AnnotationTool :=
  mkAnnotationTool (image_paths s) (current_index s) (original_image s)
    (original_width s) (original_height s) v (annotations s)
    (current_polygon s) (current_centroid s) (auto_advance s) (marked_count s)
    (zoom_slider s) (zoom_label s) (marked_label s) (image_label s).
Definition set_annotations (v : Dict.t Entry) (s : AnnotationTool) : AnnotationTool :=
  mkAnnotationTool (image_paths s) (current_index s) (original_image s)
    (original_width s) (original_height s) (scale_factor s) v
    (current_polygon s) (current_centroid s) (auto_advance s) (marked_count s)
    (zoom_slider s) (zoom_label s) (marked_label s) (image_label s).
Definition set_current_polygon (v : list (Z * Z)) (s : AnnotationTool) : AnnotationTool :=
  mkAnnotationTool (image_paths s) (current_index s) (original_image s)
    (original_width s) (original_height s) (scale_factor s) (annotations s) v
    (current_centroid s) (auto_advance s) (marked_count s) (zoom_slider s)
    (zoom_label s) (marked_label s) (image_label s).
Definition set_current_centroid (v : option (Z * Z)) (s : AnnotationTool) : AnnotationTool :=
  mkAnnotationTool (image_paths s) (current_index s) (original_image s)
    (original_width s) (original_height s) (scale_factor s) (annotations s)
    (current_polygon s) v (auto_advance s) (marked_count s) (zoom_slider s)
    (zoom_label s) (marked_label s) (image_label s).
Definition set_marked_count (v : Z) (s : AnnotationTool) : AnnotationTool :=
  mkAnnotationTool (image_paths s) (current_index s) (original_image s)
    (original_width s) (original_height s) (scale_factor s) (annotations s)
    (current_polygon s) (current_centroid s) (auto_advance s) v (zoom_slider s)
    (zoom_label s) (marked_label s) (image_label s).
Definition set_zoom_slider (v : Z) (s : AnnotationTool) : AnnotationTool :=
  mkAnnotationTool (image_paths s) (current_index s) (original_image s)
    (original_width s) (original_height s) (scale_factor s) (annotations s)
    (current_polygon s) (current_centroid s) (auto_advance s) (marked_count s)
    v (zoom_label s) (marked_label s) (image_label s).
Definition set_zoom_label (v : string) (s : AnnotationTool) : AnnotationTool :=
  mkAnnotationTool (image_paths s) (current_index s) (original_image s)
    (original_width s) (original_height s) (scale_factor s) (annotations s)
    (current_polygon s) (current_centroid s) (auto_advance s) (marked_count s)
    (zoom_slider s) v (marked_label s) (image_label s).
Definition set_marked_label (v : string) (s : AnnotationTool) : AnnotationTool :=
  mkAnnotationTool (image_paths s) (current_index s) (original_image s)
    (original_width s) (original_height s) (scale_factor s) (annotations s)
    (current_polygon s) (current_centroid s) (auto_advance s) (marked_count s)
    (zoom_slider s) (zoom_label s) v (image_label s).
Definition set_image_label (v : ZoomableLabel) (s : AnnotationTool) : AnnotationTool :=
  mkAnnotationTool (image_paths s) (current_index s) (original_image s)
    (original_width s) (original_height s) (scale_factor s) (annotations s)
    (current_polygon s) (current_centroid s) (auto_advance s) (marked_count s)
    (zoom_slider s) (zoom_label s) (marked_label s) v.

(* ================================================================== *)
(** * Effects: a state, trace and exception monad *)

(** Slots that a timer can be connected to. *)
Inductive Slot : Type :=
| slot_next_image.

(** Values that are handed to [csv.writer.writerow]. *)
Inductive PyVal : Type :=
| PyStr (s : string)
| PyInt (n : Z).

(** What the methods do to the world outside of the two objects. *)
Inductive Event : Type :=
| QMessageBox_warning (title text : string)
| QMessageBox_information (title text : string)
| QMessageBox_critical (title text : string)
| statusBar_showMessage (text : string)
| QTimer_singleShot (msec : Z) (slot : Slot)
| cv2_imread (path : string)
| painted (points : list (Z * Z)) (centroid : option (Z * Z))
| file_written (path : string) (rows : list (list PyVal)).

(** A method maps the object to a result or a raised exception, the object
    as the method left it, and the events in the order they happened. *)
Definition M (A : Type) : Type :=
  AnnotationTool -> (Py.Exception + A) * AnnotationTool * list Event.

Definition ret {A : Type} (a : A) : M A := fun s => (inr a, s, []).

Definition bind {A B : Type} (m : M A) (k : A -> M B) : M B :=
  fun s =>
    match m s with
    | (inl e, s1, ev1) => (inl e, s1, ev1)
    | (inr a, s1, ev1) =>
        match k a s1 with
        | (r, s2, ev2) => (r, s2, ev1 ++ ev2)
        end
    end.

Definition get : M AnnotationTool := fun s => (inr s, s, []).
Definition modify (f : AnnotationTool -> AnnotationTool) : M unit :=
  fun s => (inr tt, f s, []).
Definition emit (e : Event) : M unit := fun s => (inr tt, s, [e]).
Definition lift {A : Type} (r : Py.Exception + A) : M A := fun s => (r, s, []).

Notation "x <- m ;; k" := (bind m (fun x => k))
  (at level 61, m at next level, right associativity).
Notation "m ;; k" := (bind m (fun _ => k))
  (at level 61, right associativity).

(** Projections of a run. *)
Definition result {A : Type} (r : (Py.Exception + A) * AnnotationTool * list Event)
  : Py.Exception + A := fst (fst r).
Definition state {A : Type} (r : (Py.Exception + A) * AnnotationTool * list Event)
  : AnnotationTool := snd (fst r).
Definition events {A : Type} (r : (Py.Exception + A) * AnnotationTool * list Event)
  : list Event := snd r.

(* ================================================================== *)
(** * Display: [update_display] and the click mapping *)

Definition zoom_factor_of (zoom : Z) : Q := inject_Z zoom / 100.

(** [int(v * self.scale_factor * zoom_factor)]: an original coordinate on
    the scaled pixmap (lines 350-352 and 366-367). *)
Definition to_display (scale_factor zoom_factor : Q) (v : Z) : Z :=
  Py.int (inject_Z v * scale_factor * zoom_factor).

Definition update_display : M unit :=
  self <- get ;;
  match original_image self with
  | None => ret tt
  | Some (height, width) =>
      let label_size := size (image_label self) in
      let scale := Qmin (inject_Z (Qt.width label_size) / inject_Z width)
                        (inject_Z (Qt.height label_size) / inject_Z height) in
      modify (set_scale_factor scale) ;;
      let zoom_factor := zoom_factor_of (_zoom (image_label self)) in
      let scaled_width := Py.int (inject_Z width * scale * zoom_factor) in
      let scaled_height := Py.int (inject_Z height * scale * zoom_factor) in
      let scaled_pixmap := Qt.scaled scaled_width scaled_height in
      let offset_x := (inject_Z (Qt.width label_size - scaled_width) / 2)%Q in
      let offset_y := (inject_Z (Qt.height label_size - scaled_height) / 2)%Q in
      modify (fun s => set_image_label
                (set__image_rect
                   (Qt.mkQRectF offset_x offset_y
                      (inject_Z scaled_width) (inject_Z scaled_height))
                   (image_label s)) s) ;;
      let points :=
        map (fun p => (to_display scale zoom_factor (fst p),
                       to_display scale zoom_factor (snd p)))
            (current_polygon self) in
      let display_c :=
        match current_centroid self with
        | Some (cx, cy) =>
            Some (to_display scale zoom_factor cx, to_display scale zoom_factor cy)
        | None => None
        end in
      emit (painted points display_c) ;;
      modify (fun s => set_image_label (setPixmap scaled_pixmap (image_label s)) s)
  end.

(** [add_polygon_point] *)
Definition add_polygon_point (x y : Z) : M unit :=
  modify (fun s => set_current_polygon (current_polygon s ++ [(x, y)]) s) ;;
  update_display.

(** Lines 42-49 of [handle_click]: the containment test and the mapping of
    a point of the label to original pixels.  The point has rational
    coordinates because [contains] and the subtraction work on floats; a
    click supplies integers. *)
Definition click_to_original (rect : Qt.QRectF) (original_width original_height : Z)
    (px py : Q) : option (Z * Z) :=
  if negb (Qt.contains rect px py) then None
  else
    let x_in_img := ((px - Qt.x rect) / Qt.w rect)%Q in
    let y_in_img := ((py - Qt.y rect) / Qt.h rect)%Q in
    let original_x := Py.int (x_in_img * inject_Z original_width) in
    let original_y := Py.int (y_in_img * inject_Z original_height) in
    Some (original_x, original_y).

(** [ZoomableLabel.handle_click(pos)], [pos] a [QPoint]. *)
Definition handle_click (pos : Z * Z) : M unit :=
  self <- get ;;
  match pixmap (image_label self) with
  | None => ret tt
  | Some pm =>
      if Qt.isNull pm then ret tt
      else
        match click_to_original (_image_rect (image_label self))
                (original_width self) (original_height self)
                (inject_Z (fst pos)) (inject_Z (snd pos)) with
        | None => ret tt
        | Some (original_x, original_y) => add_polygon_point original_x original_y
        end
  end.

(* ================================================================== *)
(** * Zoom *)

(** [ZoomableLabel.set_zoom] *)
Definition set_zoom (value : Z) : M unit :=
  modify (fun s => set_image_label
            (set__zoom (Z.max 10 (Z.min 500 value)) (image_label s)) s) ;;
  update_display.

(** [on_zoom_changed], the slot of the slider's [valueChanged]. *)
Definition on_zoom_changed (value : Z) : M unit :=
  set_zoom value ;;
  modify (set_zoom_label (Py.str value ++ "%")).

(** [QSlider.setValue] with the range 10..500 set in [setup_ui]: the value
    is bounded to the range, and [valueChanged] fires when it changes. *)
Definition zoom_slider_setValue (value : Z) : M unit :=
  self <- get ;;
  let v := Z.max 10 (Z.min 500 value) in
  if v =? zoom_slider self then ret tt
  else modify (set_zoom_slider v) ;; on_zoom_changed v.

(** [adjust_zoom] *)
Definition adjust_zoom (zoom_in : bool) : M unit :=
  self <- get ;;
  let step := if zoom_in then 20 else -20 in
  let new_zoom := Z.min 500 (Z.max 10 (_zoom (image_label self) + step)) in
  zoom_slider_setValue new_zoom ;;
  set_zoom new_zoom ;;
  modify (set_zoom_label (Py.str new_zoom ++ "%")).

(** [zoom_to_fit] *)
Definition zoom_to_fit : M unit :=
  zoom_slider_setValue 100 ;;
  set_zoom 100 ;;
  modify (set_zoom_label "100%").

(* ================================================================== *)
(** * The marked counter and the polygon operations *)

(** [len([f for f in self.annotations.keys()
          if len(self.annotations[f]["centroids"]) > 0])] *)
Definition marked (ann : Dict.t Entry) : Z :=
  Z.of_nat (List.length
    (filter (fun f => match Dict.get ann f with
                      | Some e => 0 <? Z.of_nat (List.length (centroids e))
                      | None => false
                      end)
            (Dict.keys ann))).

(** [update_marked_count] *)
Definition update_marked_count : M unit :=
  self <- get ;;
  let total := Z.of_nat (List.length (image_paths self)) in
  modify (set_marked_label
            ("已标注: " ++ Py.str (marked (annotations self)) ++ "/" ++ Py.str total)).

(** Lines 409-412 of [finish_polygon] on the dictionary: the entry of
    [filename] is created when it is missing, then the centroid is
    appended to its list. *)
Definition record (filename : string) (centroid : Z * Z) (ann : Dict.t Entry)
  : Dict.t Entry :=
  let ann1 := if negb (Dict.mem filename ann)
              then Dict.set ann filename (mkEntry [])
              else ann in
  match Dict.get ann1 filename with
  | Some e => Dict.set ann1 filename (mkEntry (centroids e ++ [centroid]))
  | None => ann1
  end.

Definition msg_title_hint : string := "提示".
Definition msg_need_three_points : string := "至少需要3个点才能构成多边形！".

(** [finish_polygon] *)
Definition finish_polygon : M unit :=
  self <- get ;;
  if Z.of_nat (List.length (current_polygon self)) <? 3 then
    emit (QMessageBox_warning msg_title_hint msg_need_three_points)
  else
    path <- lift (Py.getitem (image_paths self) (current_index self)) ;;
    let filename := Py.basename path in
    let centroid := calculate_centroid (current_polygon self) in
    modify (set_current_centroid (Some centroid)) ;;
    modify (fun s => set_annotations (record filename centroid (annotations s)) s) ;;
    modify (fun s => set_marked_count (marked_count s + 1) s) ;;
    update_marked_count ;;
    emit (statusBar_showMessage
            ("已保存形心: (" ++ Py.str (fst centroid) ++ ", "
               ++ Py.str (snd centroid) ++ ")")) ;;
    modify (set_current_polygon []) ;;
    update_display ;;
    if auto_advance self then emit (QTimer_singleShot 1000 slot_next_image)
    else ret tt.

(** [clear_current] *)
Definition clear_current : M unit :=
  modify (set_current_polygon []) ;;
  modify (set_current_centroid None) ;;
  update_display.

(** [ZoomableLabel.mousePressEvent] *)
Inductive MouseButton : Type := LeftButton | RightButton | OtherButton.

Definition mousePressEvent (button : MouseButton) (pos : Z * Z) : M unit :=
  self <- get ;;
  match button with
  | LeftButton =>
      match pixmap (image_label self) with
      | Some pm => if Qt.isNull pm then ret tt else handle_click pos
      | None => ret tt
      end
  | RightButton => finish_polygon
  | OtherButton => ret tt
  end.

(* ================================================================== *)
(** * Navigation *)

Section Navigation.

(** [cv2.imread]: the shape (height, width) of the decoded image, or
    [None] when the file cannot be decoded. *)
Variable imread : string -> option (Z * Z).

(** [load_current_image] *)
Definition load_current_image : M unit :=
  self <- get ;;
  if (0 <=? current_index self)
     && (current_index self <? Z.of_nat (List.length (image_paths self))) then
    image_path <- lift (Py.getitem (image_paths self) (current_index self)) ;;
    emit (cv2_imread image_path) ;;
    match imread image_path with
    | None => emit (QMessageBox_warning "错误" ("无法加载图片: " ++ image_path))
    | Some img =>
        modify (set_original_image img) ;;
        modify (set_current_polygon []) ;;
        modify (set_current_centroid None) ;;
        update_display ;;
        emit (statusBar_showMessage ("正在标注: " ++ Py.basename image_path)) ;;
        update_marked_count
    end
  else ret tt.

(** [prev_image] *)
Definition prev_image : M unit :=
  self <- get ;;
  match image_paths self with
  | [] => ret tt
  | _ :: _ =>
      modify (set_current_index (Z.max 0 (current_index self - 1))) ;;
      load_current_image
  end.

(** [next_image] *)
Definition next_image : M unit :=
  self <- get ;;
  match image_paths self with
  | [] => ret tt
  | _ :: _ =>
      modify (set_current_index
                (Z.min (Z.of_nat (List.length (image_paths self)) - 1)
                       (current_index self + 1))) ;;
      load_current_image
  end.

(** [load_selected_image], with the row of the clicked index. *)
Definition load_selected_image (row : Z) : M unit :=
  modify (set_current_index row) ;;
  load_current_image.

Definition image_suffixes : list string :=
  [".png"; ".jpg"; ".jpeg"; ".bmp"; ".tif"; ".tiff"]%string.

(** [open_image_folder].  [dir_path] is what the directory dialog returns
    (empty when the operator cancels) and [listing] is [os.listdir(dir_path)].
    The fields [image_dir] and [list_model] are only written, never read by
    the methods modelled here, and are left out. *)
Definition open_image_folder (dir_path : string) (listing : list string) : M unit :=
  if String.eqb dir_path "" then ret tt
  else
    modify (set_image_paths
              (map (Py.join dir_path)
                 (filter (fun f => Py.endswith_any (Py.lower f) image_suffixes)
                         listing))) ;;
    self <- get ;;
    match image_paths self with
    | [] => emit (QMessageBox_warning "警告" "未找到支持的图片文件！")
    | _ :: _ =>
        modify (set_current_index 0) ;;
        modify (set_annotations []) ;;
        modify (set_marked_count 0) ;;
        load_current_image ;;
        update_marked_count
    end.

End Navigation.

(* ================================================================== *)
(** * Export *)

Definition csv_header : list PyVal :=
  [PyStr "filename"; PyStr "centroid_x"; PyStr "centroid_y"].

(** The inner loop [for cx, cy in data["centroids"]: writer.writerow(...)];
    [written] holds the rows handed to the writer so far. *)
Fixpoint write_centroids (filename : string) (cs : list (Z * Z))
    (written : list (list PyVal)) : list (list PyVal) :=
  match cs with
  | [] => written
  | (cx, cy) :: rest =>
      write_centroids filename rest (written ++ [[PyStr filename; PyInt cx; PyInt cy]])
  end.

(** The outer loop [for filename, data in self.annotations.items()]. *)
Fixpoint write_entries (items : list (string * Entry))
    (written : list (list PyVal)) : list (list PyVal) :=
  match items with
  | [] => written
  | (filename, data) :: rest =>
      write_entries rest (write_centroids filename (centroids data) written)
  end.

(** The body of the [with] block: header, then the two loops. *)
Definition write_rows (ann : Dict.t Entry) : list (list PyVal) :=
  write_entries ann ([] ++ [csv_header]).

(** [save_centroids].  [save_path] is what the file dialog returns (empty
    when the operator cancels); [io_error] is the text of the exception
    that opening or writing the file raises, if it raises one. *)
Definition save_centroids (save_path : string) (io_error : option string) : M unit :=
  self <- get ;;
  match annotations self with
  | [] => emit (QMessageBox_warning "警告" "没有可保存的标注！")
  | _ :: _ =>
      if String.eqb save_path "" then ret tt
      else
        match io_error with
        | None =>
            emit (file_written save_path (write_rows (annotations self))) ;;
            emit (QMessageBox_information "成功"
                    ("形心坐标已保存到：" ++ String (ascii_of_nat 10) save_path))
        | Some e => emit (QMessageBox_critical "错误" ("保存失败：" ++ e))
        end
  end.

(** The text that [csv.writer] (dialect excel) produces for a row: a field
    is quoted when it holds a comma, a quote or a line break, a quote
    inside a quoted field is doubled, fields are joined by commas. *)
Definition quotechar : ascii := "034"%char.

Definition needs_quote (c : ascii) : bool :=
  Ascii.eqb c ","%char || Ascii.eqb c quotechar
  || Ascii.eqb c "013"%char || Ascii.eqb c "010"%char.

Fixpoint any_char (f : ascii -> bool) (s : string) : bool :=
  match s with
  | EmptyString => false
  | String c rest => f c || any_char f rest
  end.

Fixpoint double_quotes (s : string) : string :=
  match s with
  | EmptyString => EmptyString
  | String c rest =>
      if Ascii.eqb c quotechar then String c (String c (double_quotes rest))
      else String c (double_quotes rest)
  end.

Definition csv_field (v : PyVal) : string :=
  match v with
  | PyInt n => Py.str n
  | PyStr s =>
      if any_char needs_quote s
      then String quotechar (double_quotes s ++ String quotechar EmptyString)
      else s
  end.

Definition csv_line (row : list PyVal) : string :=
  String.concat "," (map csv_field row).

(* ================================================================== *)
(** * The handlers of the window *)

(** What the operator, or the timer, can make the window do. *)
Inductive Gesture : Type :=
| wheel (zoom_in : bool)                        (* [wheelEvent], toolbar zoom *)
| mouse (button : MouseButton) (pos : Z * Z)    (* [mousePressEvent] *)
| slider (value : Z)                            (* the slider is dragged *)
| fit                                           (* toolbar, [zoom_to_fit] *)
| previous                                      (* toolbar, [prev_image] *)
| next                                          (* toolbar or timer, [next_image] *)
| select (row : Z)                              (* a row of the list is clicked *)
| open_folder (dir_path : string) (listing : list string)
| save (save_path : string) (io_error : option string)
| clear.                                        (* [clear_current] *)

Definition dispatch (imread : string -> option (Z * Z)) (g : Gesture) : M unit :=
  match g with
  | wheel zoom_in => adjust_zoom zoom_in
  | mouse button pos => mousePressEvent button pos
  | slider value => zoom_slider_setValue value
  | fit => zoom_to_fit
  | previous => prev_image imread
  | next => next_image imread
  | select row => load_selected_image imread row
  | open_folder dir_path listing => open_image_folder imread dir_path listing
  | save save_path io_error => save_centroids save_path io_error
  | clear => clear_current
  end.

(** The state after a sequence of gestures. *)
Definition run (imread : string -> option (Z * Z)) (gs : list Gesture)
    (s : AnnotationTool) : AnnotationTool :=
  fold_left (fun s g => state (dispatch imread g s)) gs s.

(* ================================================================== *)
(** * Vocabulary of the statements *)

(** [c] is [q] with its fractional part dropped: the integer next to [q]
    on the side of zero. *)
Definition truncates_toward_zero (q : Q) (c : Z) : Prop :=
  (0 <= q -> inject_Z c <= q /\ q < inject_Z c + 1)%Q /\
  (q <= 0 -> inject_Z c - 1 < q /\ q <= inject_Z c)%Q.

(** The fields of the session that drawing never assigns. *)
Definition same_session (s s' : AnnotationTool) : Prop :=
  image_paths s' = image_paths s /\
  current_index s' = current_index s /\
  original_image s' = original_image s /\
  original_width s' = original_width s /\
  original_height s' = original_height s /\
  annotations s' = annotations s /\
  current_polygon s' = current_polygon s /\
  current_centroid s' = current_centroid s /\
  auto_advance s' = auto_advance s /\
  marked_count s' = marked_count s /\
  zoom_slider s' = zoom_slider s /\
  _zoom (image_label s') = _zoom (image_label s) /\
  size (image_label s') = size (image_label s).

Definition insufficient_vertices : Event :=
  QMessageBox_warning msg_title_hint msg_need_three_points.

(** The object after [add_polygon_point] is called for each vertex of
    [vs] in turn. *)
Definition add_points (vs : list (Z * Z)) (s : AnnotationTool) : AnnotationTool :=
  fold_left (fun s p => state (add_polygon_point (fst p) (snd p) s)) vs s.

(** The list that [filename] has before a centroid is recorded. *)
Definition recorded (ann : Dict.t Entry) (filename : string) : list (Z * Z) :=
  match Dict.get ann filename with
  | Some e => centroids e
  | None => []
  end.

Definition has_centroids (e : Entry) : bool :=
  0 <? Z.of_nat (List.length (centroids e)).

(** The number of bindings with a centroid. *)
Definition count_entries (d : Dict.t Entry) : nat :=
  List.length (filter (fun kv => has_centroids (snd kv)) d).

Definition zoom_of (s : AnnotationTool) : Z := _zoom (image_label s).

Definition zoom_in_range (s : AnnotationTool) : Prop := 10 <= zoom_of s <= 500.

(** A method that does not assign the zoom. *)
Definition keeps_zoom {A : Type} (m : M A) : Prop :=
  forall s, zoom_of (state (m s)) = zoom_of s.

(** The rows as the specification words them: the header, then for each
    entry in order, one row per centroid in order. *)
Definition rows_of_entry (item : string * Entry) : list (list PyVal) :=
  map (fun c => [PyStr (fst item); PyInt (fst c); PyInt (snd c)])
      (centroids (snd item)).

Definition export_rows (ann : Dict.t Entry) : list (list PyVal) :=
  csv_header :: flat_map rows_of_entry ann.

(** The number of centroids in the store. *)
Definition total_centroids (ann : Dict.t Entry) : nat :=
  list_sum (map (fun item => List.length (centroids (snd item))) ann).

(* ================================================================== *)
(** * Sessions and stores used as examples *)

(** The polygons of the specification's examples. *)
Definition square : list (Z * Z) := [(0, 0); (10, 0); (10, 10); (0, 10)].
Definition collinear : list (Z * Z) := [(0, 0); (5, 0); (10, 0)].

(** A directory with two images that decode and a file that is no image. *)
Definition demo_imread (path : string) : option (Z * Z) :=
  if String.eqb path "/data/a.png" then Some (100, 100)
  else if String.eqb path "/data/b.PNG" then Some (1024, 1024)
  else None.

(** The window with a label of 900 x 700 after the directory is opened: the
    image a.png of 100 x 100 is drawn at the scale 7 in the rectangle
    x = 100..800, y = 0..700. *)
Definition demo_session : AnnotationTool :=
  Eval vm_compute in
  run demo_imread [open_folder "/data" ["a.png"; "notes.txt"; "b.PNG"]%string]
    (AnnotationTool_init (Qt.mkQSize 900 700)).

(** Two left clicks: the pending polygon is [(0,0); (10,0)]. *)
Definition two_pending : AnnotationTool :=
  Eval vm_compute in
  run demo_imread [mouse LeftButton (100, 0); mouse LeftButton (170, 0)]
    demo_session.

(** The square is drawn and finished, then two more vertices are placed:
    a.png has the centroid (5,5), which is also the preview. *)
Definition two_pending_with_centroid : AnnotationTool :=
  Eval vm_compute in
  run demo_imread
    [mouse LeftButton (100, 0); mouse LeftButton (170, 0);
     mouse LeftButton (170, 70); mouse LeftButton (100, 70);
     mouse RightButton (0, 0);
     mouse LeftButton (107, 7); mouse LeftButton (114, 14)]
    demo_session.

(** The store of the specification's export example. *)
Definition example_store : Dict.t Entry :=
  [("a.png"%string, mkEntry [(1, 2)]); ("b.png"%string, mkEntry [(3, 4); (5, 6)])].

(** A click on the right edge of the rectangle of [demo_session]. *)
Definition edge_click : Z * Z := (800, 350).

(** The window with a label of 256 x 256 showing an image of 1024 x 1024 at
    zoom 100, that is at the scale 1/4. *)
Definition small_label_session : AnnotationTool :=
  Eval vm_compute in
  run demo_imread [open_folder "/data" ["b.PNG"]%string]
    (AnnotationTool_init (Qt.mkQSize 256 256)).

(* ================================================================== *)
(** * Further handlers of the two classes *)

(** [ZoomableLabel.wheelEvent]: [zoom_in = event.angleDelta().y() > 0]. *)
Definition wheelEvent (angle_delta_y : Z) : M unit :=
  adjust_zoom (0 <? angle_delta_y).

(** [ImageListModel]: the roles [data] is asked for and what it returns. *)
Inductive ItemDataRole : Type := DisplayRole | DecorationRole | OtherRole.

Inductive QVariant : Type :=
| variant_none                       (* the method falls off its end *)
| variant_str (s : string)
| variant_icon (theme_name : string).

Record ImageListModel : Type := mkImageListModel { image_files : list string }.

(** [ImageListModel.__init__]: [self.image_files = image_files or []]. *)
Definition ImageListModel_init (files : option (list string)) : ImageListModel :=
  match files with
  | Some (f :: rest) => mkImageListModel (f :: rest)
  | _ => mkImageListModel []
  end.

(** [ImageListModel.data(index, role)], with the row of the index. *)
Definition data (model : ImageListModel) (row : Z) (role : ItemDataRole)
  : Py.Exception + QVariant :=
  match role with
  | DisplayRole =>
      match Py.getitem (image_files model) row with
      | inr path => inr (variant_str (Py.basename path))
      | inl e => inl e
      end
  | DecorationRole => inr (variant_icon "image-x-generic")
  | OtherRole => inr variant_none
  end.

(** [ImageListModel.rowCount] *)
Definition rowCount (model : ImageListModel) : Z :=
  Z.of_nat (List.length (image_files model)).

(* ================================================================== *)
(** * Further vocabulary *)

(** The test of the comprehension in [open_image_folder]. *)
Definition is_image_file (f : string) : bool :=
  Py.endswith_any (Py.lower f) image_suffixes.

(** A name without a slash, as [os.listdir] returns them. *)
Definition slash_free (f : string) : Prop :=
  any_char (Ascii.eqb "/"%char) f = false.

(** A method that leaves the view [f] of the object as it finds it. *)
Definition preserves {T A : Type} (f : AnnotationTool -> T) (m : M A) : Prop :=
  forall s, f (state (m s)) = f s.

(** A method that returns normally from every state. *)
Definition never_raises {A : Type} (m : M A) : Prop :=
  forall s, exists a, result (m s) = inr a.

(** The fields that loading an image sets or keeps. *)
Definition session_view (s : AnnotationTool)
  : list (Z * Z) * option (Z * Z) * option (Z * Z) * Z * Z
    * (Dict.t Entry * Z) * list string * Z :=
  (current_polygon s, current_centroid s, original_image s, original_width s,
   original_height s, (annotations s, marked_count s), image_paths s,
   current_index s).

(** The store and its counter. *)
Definition store_of (s : AnnotationTool) : Dict.t Entry * Z :=
  (annotations s, marked_count s).

(** The store as finishing polygons builds it: one binding per key, no
    entry without a centroid, and the counter at the number of centroids. *)
Definition store_ok (s : AnnotationTool) : Prop :=
  Dict.wf (annotations s) /\
  Forall (fun item => centroids (snd item) <> []) (annotations s) /\
  marked_count s = Z.of_nat (total_centroids (annotations s)).

(** The three places that show the zoom. *)
Definition zoom_widgets_agree (s : AnnotationTool) : Prop :=
  zoom_slider s = zoom_of s /\
  zoom_label s = (Py.str (zoom_of s) ++ "%")%string.

(** The gestures that can write the store. *)
Definition writes_store (g : Gesture) : bool :=
  match g with
  | mouse RightButton _ => true
  | open_folder _ _ => true
  | _ => false
  end.

(* ================================================================== *)
(** * Comparisons of rationals *)

Lemma Qlt_bool_iff (a b : Q) : Qlt_bool a b = true <-> (a < b)%Q.
Proof.
  unfold Qlt_bool. rewrite negb_true_iff.
  destruct (Qle_bool b a) eqn:E.
  - apply Qle_bool_iff in E. split; [discriminate|]. intros H.
    exfalso. exact (Qlt_not_le _ _ H E).
  - split; [intros _|reflexivity].
    apply Qnot_le_lt. intros H. apply Qle_bool_iff in H. congruence.
Qed.

Lemma Qlt_bool_false_iff (a b : Q) : Qlt_bool a b = false <-> (b <= a)%Q.
Proof.
  unfold Qlt_bool. rewrite negb_false_iff. apply Qle_bool_iff.
Qed.

Lemma Qeq_bool_false (a b : Q) : ~ (a == b)%Q -> Qeq_bool a b = false.
Proof.
  intros H. destruct (Qeq_bool a b) eqn:E; [|reflexivity].
  apply Qeq_bool_iff in E. contradiction.
Qed.

(* ================================================================== *)
(** * Truncation *)

Lemma int_nonneg_bounds (q : Q) :
  (0 <= q)%Q -> (inject_Z (Py.int q) <= q /\ q < inject_Z (Py.int q) + 1)%Q.
Proof.
  destruct q as [n d]. unfold Py.int, Qle, Qlt, Qplus, inject_Z. cbn.
  intros Hn. rewrite Z.mul_1_r in Hn.
  pose proof (Z.quot_rem' n (Zpos d)) as E.
  pose proof (Z.rem_bound_pos n (Zpos d) Hn (Pos2Z.is_pos d)) as B.
  split; nia.
Qed.

Lemma int_nonpos_bounds (q : Q) :
  (q <= 0)%Q -> (inject_Z (Py.int q) - 1 < q /\ q <= inject_Z (Py.int q))%Q.
Proof.
  destruct q as [n d]. unfold Py.int, Qle, Qlt, Qminus, Qplus, Qopp, inject_Z. cbn.
  intros Hn. rewrite Z.mul_1_r in Hn.
  pose proof (Z.quot_rem' n (Zpos d)) as E.
  assert (B : - Zpos d < Z.rem n (Zpos d) <= 0).
  { pose proof (Z.rem_bound_pos (- n) (Zpos d)) as B.
    rewrite Z.rem_opp_l in B by lia. lia. }
  split; nia.
Qed.

Lemma int_truncates (q : Q) : truncates_toward_zero q (Py.int q).
Proof.
  split; [apply int_nonneg_bounds | apply int_nonpos_bounds].
Qed.

(** The integer part of a non-negative number is determined by its bounds. *)
Lemma int_unique_nonneg (q : Q) (c : Z) :
  (inject_Z c <= q)%Q -> (q < inject_Z c + 1)%Q -> 0 <= c -> Py.int q = c.
Proof.
  intros Hlo Hhi Hc.
  assert (Hq : (0 <= q)%Q).
  { apply Qle_trans with (inject_Z c); [|exact Hlo].
    unfold Qle, inject_Z; cbn; lia. }
  destruct (int_nonneg_bounds q Hq) as [Ilo Ihi].
  assert (L1 : (inject_Z c < inject_Z (Py.int q) + 1)%Q) by lra.
  assert (L2 : (inject_Z (Py.int q) < inject_Z c + 1)%Q) by lra.
  unfold Qlt, Qplus, inject_Z in L1, L2; cbn in L1, L2. lia.
Qed.

Lemma int_inject_Z (n : Z) : Py.int (inject_Z n) = n.
Proof. unfold Py.int, inject_Z; cbn. apply Z.quot_1_r. Qed.

(* ================================================================== *)
(** * Centroid *)


(** For a triangle the Green sums are twice the signed area and that area
    sum times the sums of the coordinates: the quotients [a10/(3 a00)] and
    [a01/(3 a00)] are the means of the corners. *)
Lemma triangle_green_sums (x1 y1 x2 y2 x3 y3 : Q) :
  let polygon := [(x1, y1); (x2, y2); (x3, y3)] in
  let acc := Cv2.loop (Cv2.mkAcc 0 0 0) (last polygon (x1, y1)) polygon in
  (Cv2.a00 acc == (x2 - x1) * (y3 - y1) - (x3 - x1) * (y2 - y1))%Q /\
  (Cv2.a10 acc == Cv2.a00 acc * (x1 + x2 + x3))%Q /\
  (Cv2.a01 acc == Cv2.a00 acc * (y1 + y2 + y3))%Q.
Proof.
  cbn -[Qplus Qmult Qminus]. repeat split; ring.
Qed.

(** The quotient is cut, not rounded: the exact centroid of this triangle
    is (5/3, 5/3), whose nearest integers are (2, 2). *)
Example centroid_of_triangle :
  calculate_centroid [(0, 0); (5, 0); (0, 5)] = (1, 1).
Proof. reflexivity. Qed.

(** The cut is toward zero, not downward: the exact centroid is
    (-5/3, -5/3). *)
Example centroid_of_negative_triangle :
  calculate_centroid [(0, 0); (-5, 0); (0, -5)] = (-1, -1).
Proof. reflexivity. Qed.

(** The orientation of the path does not change the centroid. *)
Example centroid_of_clockwise_square :
  calculate_centroid (rev square) = (5, 5).
Proof. reflexivity. Qed.

(** C1.  Whenever the area moment [m00] of the vertices is not zero, the
    centroid is the pair of quotients [m10/m00] and [m01/m00], each with its
    fractional part cut off toward zero; the square with corners (0,0),
    (10,0), (10,10), (0,10) has the centroid (5,5). *)
Theorem calculate_centroid_truncates :
  (forall points : list (Z * Z),
      let m := Cv2.moments (np_array points) in
      ~ (Cv2.m00 m == 0)%Q ->
      calculate_centroid points
        = (Py.int (Cv2.m10 m / Cv2.m00 m), Py.int (Cv2.m01 m / Cv2.m00 m))
      /\ truncates_toward_zero (Cv2.m10 m / Cv2.m00 m)
           (fst (calculate_centroid points))
      /\ truncates_toward_zero (Cv2.m01 m / Cv2.m00 m)
           (snd (calculate_centroid points)))
  /\ calculate_centroid square = (5, 5).
Proof.
  split; [|reflexivity].
  intros points m Hm.
  assert (E : calculate_centroid points
              = (Py.int (Cv2.m10 m / Cv2.m00 m), Py.int (Cv2.m01 m / Cv2.m00 m))).
  { unfold calculate_centroid. fold m.
    destruct (Qeq_bool (Cv2.m00 m) 0) eqn:Hz; [|reflexivity].
    apply Qeq_bool_iff in Hz. contradiction. }
  rewrite E. cbn [fst snd].
  split; [reflexivity | split; apply int_truncates].
Qed.

Lemma calculate_centroid_truncates_witness :
  ~ (Cv2.m00 (Cv2.moments (np_array square)) == 0)%Q
  /\ calculate_centroid square = (5, 5)
  /\ truncates_toward_zero
       (Cv2.m10 (Cv2.moments (np_array square))
        / Cv2.m00 (Cv2.moments (np_array square))) 5.
Proof.
  assert (H : ~ (Cv2.m00 (Cv2.moments (np_array square)) == 0)%Q).
  { intro H. vm_compute in H. discriminate H. }
  split; [exact H|].
  destruct (proj1 calculate_centroid_truncates square H) as [E [Tx _]].
  split; [reflexivity | exact Tx].
Defined.

(** C2.  Whenever the area moment [m00] of the vertices is zero, the
    centroid is the pair (0,0); the function has no other outcome.  The
    three collinear vertices (0,0), (5,0), (10,0) are such a sequence. *)
Theorem calculate_centroid_zero_area :
  (forall points : list (Z * Z),
      (Cv2.m00 (Cv2.moments (np_array points)) == 0)%Q ->
      calculate_centroid points = (0, 0))
  /\ (Cv2.m00 (Cv2.moments (np_array collinear)) == 0)%Q
  /\ calculate_centroid collinear = (0, 0).
Proof.
  split; [|split; reflexivity].
  intros points Hm. unfold calculate_centroid.
  apply Qeq_bool_iff in Hm. rewrite Hm. reflexivity.
Qed.

Lemma calculate_centroid_zero_area_witness :
  (Cv2.m00 (Cv2.moments (np_array collinear)) == 0)%Q
  /\ calculate_centroid collinear = (0, 0).
Proof.
  assert (H : (Cv2.m00 (Cv2.moments (np_array collinear)) == 0)%Q) by reflexivity.
  split; [exact H|].
  exact (proj1 calculate_centroid_zero_area collinear H).
Defined.

(* ================================================================== *)
(** * What the display update leaves alone *)

Lemma same_session_refl (s : AnnotationTool) : same_session s s.
Proof. unfold same_session; repeat split. Qed.

Lemma update_display_frame (s : AnnotationTool) :
  result (update_display s) = inr tt /\
  same_session s (state (update_display s)) /\
  forall e, In e (events (update_display s)) -> exists pts c, e = painted pts c.
Proof.
  unfold update_display, bind, get, modify, emit, ret, result, state, events.
  destruct (original_image s) as [[height width]|] eqn:Himg; cbn.
  - unfold same_session; cbn.
    repeat split; try reflexivity; try assumption.
    intros e [<-|[]]. eauto.
  - split; [reflexivity|]. split; [apply same_session_refl|]. intros e [].
Qed.

Lemma add_polygon_point_spec (x y : Z) (s : AnnotationTool) :
  let r := add_polygon_point x y s in
  result r = inr tt /\
  current_polygon (state r) = current_polygon s ++ [(x, y)] /\
  image_paths (state r) = image_paths s /\
  current_index (state r) = current_index s /\
  annotations (state r) = annotations s /\
  current_centroid (state r) = current_centroid s /\
  auto_advance (state r) = auto_advance s.
Proof.
  unfold add_polygon_point, bind, modify.
  set (s1 := set_current_polygon (current_polygon s ++ [(x, y)]) s).
  destruct (update_display_frame s1) as [R [F _]].
  destruct (update_display s1) as [[res s2] ev] eqn:E.
  unfold result, state in *; cbn in *.
  destruct res as [e|[]]; [discriminate R|]. cbn.
  unfold same_session in F. cbn in F. intuition congruence.
Qed.

(* ================================================================== *)
(** * Finishing a polygon *)

Lemma finish_polygon_too_few (s : AnnotationTool) :
  Z.of_nat (List.length (current_polygon s)) < 3 ->
  finish_polygon s = (inr tt, s, [insufficient_vertices]).
Proof.
  intros H. unfold finish_polygon, bind, get, emit.
  apply Z.ltb_lt in H. rewrite H. reflexivity.
Qed.


(* ================================================================== *)
(** * The dictionary and [record] *)

Module DictFacts.

Lemma get_set_same {V : Type} (d : Dict.t V) (k : string) (v : V) :
  Dict.get (Dict.set d k v) k = Some v.
Proof.
  induction d as [|[k' v'] d IH]; cbn.
  - now rewrite String.eqb_refl.
  - destruct (String.eqb k k') eqn:E; cbn; rewrite E; auto.
Qed.

Lemma get_set_other {V : Type} (d : Dict.t V) (k k' : string) (v : V) :
  k' <> k -> Dict.get (Dict.set d k v) k' = Dict.get d k'.
Proof.
  intros Hne. induction d as [|[k0 v0] d IH]; cbn.
  - apply String.eqb_neq in Hne. now rewrite Hne.
  - destruct (String.eqb k k0) eqn:E; cbn.
    + apply String.eqb_eq in E. subst k0.
      apply String.eqb_neq in Hne. now rewrite Hne.
    + now rewrite IH.
Qed.

Lemma get_None_notin {V : Type} (d : Dict.t V) (k : string) :
  Dict.get d k = None <-> ~ In k (Dict.keys d).
Proof.
  induction d as [|[k' v'] d IH]; cbn.
  - tauto.
  - destruct (String.eqb k k') eqn:E.
    + apply String.eqb_eq in E. subst. split; [discriminate | tauto].
    + apply String.eqb_neq in E. rewrite IH. split; [intros H [?|?] | ]; try tauto.
      congruence.
Qed.

Lemma keys_set_present {V : Type} (d : Dict.t V) (k : string) (v : V) :
  Dict.mem k d = true -> Dict.keys (Dict.set d k v) = Dict.keys d.
Proof.
  unfold Dict.mem, Dict.keys. induction d as [|[k' v'] d IH]; cbn.
  - discriminate.
  - destruct (String.eqb k k') eqn:E; cbn; [reflexivity|].
    intros H. now rewrite IH.
Qed.

Lemma keys_set_absent {V : Type} (d : Dict.t V) (k : string) (v : V) :
  Dict.mem k d = false -> Dict.keys (Dict.set d k v) = Dict.keys d ++ [k].
Proof.
  unfold Dict.mem, Dict.keys. induction d as [|[k' v'] d IH]; cbn.
  - reflexivity.
  - destruct (String.eqb k k') eqn:E; cbn; [discriminate|].
    intros H. now rewrite IH.
Qed.

Lemma mem_false_notin {V : Type} (d : Dict.t V) (k : string) :
  Dict.mem k d = false <-> ~ In k (Dict.keys d).
Proof.
  rewrite <- get_None_notin. unfold Dict.mem.
  destruct (Dict.get d k); split; congruence.
Qed.

Lemma wf_set {V : Type} (d : Dict.t V) (k : string) (v : V) :
  Dict.wf d -> Dict.wf (Dict.set d k v).
Proof.
  unfold Dict.wf. intros H.
  destruct (Dict.mem k d) eqn:E.
  - now rewrite keys_set_present.
  - rewrite keys_set_absent by exact E.
    apply mem_false_notin in E.
    apply NoDup_app; [exact H | repeat constructor; intros [] | ].
    intros a Ha [<-|[]]. contradiction.
Qed.

(** In a well-formed dictionary every binding is the one its key finds. *)
Lemma get_in {V : Type} (d : Dict.t V) (k : string) (v : V) :
  Dict.wf d -> In (k, v) d -> Dict.get d k = Some v.
Proof.
  unfold Dict.wf. induction d as [|[k' v'] d IH]; cbn; [tauto|].
  intros Hnd Hin. inversion Hnd as [|? ? Hnot Hnd']; subst.
  destruct Hin as [Heq|Hin].
  - inversion Heq; subst. now rewrite String.eqb_refl.
  - destruct (String.eqb k k') eqn:E.
    + apply String.eqb_eq in E. subst k'. exfalso. apply Hnot.
      change k with (fst (k, v)). now apply in_map.
    + auto.
Qed.

End DictFacts.

Lemma record_unfold (filename : string) (c : Z * Z) (ann : Dict.t Entry) :
  record filename c ann =
  if Dict.mem filename ann
  then Dict.set ann filename (mkEntry (recorded ann filename ++ [c]))
  else Dict.set (Dict.set ann filename (mkEntry [])) filename (mkEntry [c]).
Proof.
  unfold record, recorded, Dict.mem.
  destruct (Dict.get ann filename) as [e|] eqn:E; cbn.
  - now rewrite E.
  - now rewrite DictFacts.get_set_same.
Qed.

Lemma set_set {V : Type} (d : Dict.t V) (k : string) (v v' : V) :
  Dict.set (Dict.set d k v) k v' = Dict.set d k v'.
Proof.
  induction d as [|[k0 v0] d IH]; cbn.
  - now rewrite String.eqb_refl.
  - destruct (String.eqb k k0) eqn:E; cbn; rewrite E; [reflexivity|now rewrite IH].
Qed.

Lemma record_get (filename : string) (c : Z * Z) (ann : Dict.t Entry) :
  Dict.get (record filename c ann) filename
  = Some (mkEntry (recorded ann filename ++ [c])).
Proof.
  rewrite record_unfold. unfold recorded, Dict.mem.
  destruct (Dict.get ann filename) as [e|] eqn:E;
    now rewrite DictFacts.get_set_same.
Qed.

Lemma record_get_other (filename other : string) (c : Z * Z) (ann : Dict.t Entry) :
  other <> filename ->
  Dict.get (record filename c ann) other = Dict.get ann other.
Proof.
  intros Hne. rewrite record_unfold.
  destruct (Dict.mem filename ann);
    now rewrite ?DictFacts.get_set_other by exact Hne.
Qed.

Lemma record_keys (filename : string) (c : Z * Z) (ann : Dict.t Entry) :
  Dict.keys (record filename c ann)
  = if Dict.mem filename ann then Dict.keys ann else Dict.keys ann ++ [filename].
Proof.
  rewrite record_unfold. destruct (Dict.mem filename ann) eqn:E.
  - now apply DictFacts.keys_set_present.
  - rewrite set_set. now apply DictFacts.keys_set_absent.
Qed.

Lemma record_wf (filename : string) (c : Z * Z) (ann : Dict.t Entry) :
  Dict.wf ann -> Dict.wf (record filename c ann).
Proof.
  intros H. rewrite record_unfold.
  destruct (Dict.mem filename ann); repeat apply DictFacts.wf_set; exact H.
Qed.

Lemma marked_count_entries (ann : Dict.t Entry) :
  Dict.wf ann -> marked ann = Z.of_nat (count_entries ann).
Proof.
  intros Hwf. unfold marked, count_entries. f_equal.
  assert (G : forall d : Dict.t Entry,
             (forall k e, In (k, e) d -> Dict.get ann k = Some e) ->
             List.length
               (filter (fun f => match Dict.get ann f with
                                 | Some e => 0 <? Z.of_nat (List.length (centroids e))
                                 | None => false
                                 end) (Dict.keys d))
             = List.length (filter (fun kv => has_centroids (snd kv)) d)).
  { induction d as [|[k e] d IH]; intros Hd; cbn; [reflexivity|].
    rewrite (Hd k e) by now left.
    fold (has_centroids e).
    destruct (has_centroids e); cbn; rewrite <- IH; unfold Dict.keys; auto;
      intros; apply Hd; now right. }
  apply G. intros k e Hin. now apply DictFacts.get_in.
Qed.

Lemma count_entries_set (d : Dict.t Entry) (k : string) (v : Entry) :
  (count_entries (Dict.set d k v)
   + (if (0 <? Z.of_nat (List.length (recorded d k)))%Z then 1 else 0)
   = count_entries d + (if has_centroids v then 1 else 0))%nat.
Proof.
  unfold count_entries, recorded.
  induction d as [|[k0 v0] d IH]; cbn.
  - destruct (has_centroids v); cbn; lia.
  - destruct (String.eqb k k0) eqn:E; cbn.
    + fold (has_centroids v0).
      destruct (has_centroids v), (has_centroids v0); cbn; lia.
    + destruct (has_centroids v0); cbn; lia.
Qed.

Lemma marked_record (filename : string) (c : Z * Z) (ann : Dict.t Entry) :
  Dict.wf ann ->
  marked (record filename c ann)
  = if 0 <? Z.of_nat (List.length (recorded ann filename))
    then marked ann else marked ann + 1.
Proof.
  intros Hwf.
  rewrite !marked_count_entries by (try apply record_wf; exact Hwf).
  rewrite record_unfold.
  assert (Hnew : forall l, has_centroids (mkEntry (l ++ [c])) = true).
  { intros l. unfold has_centroids; cbn. rewrite length_app; cbn.
    apply Z.ltb_lt. lia. }
  destruct (Dict.mem filename ann) eqn:E.
  - pose proof (count_entries_set ann filename
                  (mkEntry (recorded ann filename ++ [c]))) as H.
    rewrite Hnew in H.
    destruct (0 <? Z.of_nat (List.length (recorded ann filename))); lia.
  - rewrite set_set.
    pose proof (count_entries_set ann filename (mkEntry [c])) as H.
    pose proof (Hnew []) as Hc. cbn [app] in Hc. rewrite Hc in H.
    destruct (0 <? Z.of_nat (List.length (recorded ann filename))); lia.
Qed.




(** The success of [finish_polygon] needs the current image:
    [self.image_paths[self.current_index]] is read without a guard.  When a
    folder without images is opened over a loaded session the list is
    emptied while the old image stays on the label; three clicks and a
    right click then raise [IndexError]. *)
Example finish_without_current_image_raises :
  let s := run demo_imread
             [open_folder "/empty" ["notes.txt"]%string;
              mouse LeftButton (100, 0); mouse LeftButton (170, 0);
              mouse LeftButton (170, 70)]
             demo_session in
  image_paths s = [] /\
  current_polygon s = [(0, 0); (10, 0); (10, 10)] /\
  result (finish_polygon s) = inl Py.IndexError.
Proof. vm_compute. repeat split. Qed.

(** C10.  With fewer than three pending vertices [finish_polygon] changes
    nothing at all: the whole object, and with it the annotations, the
    centroid preview and the current index, is as before, and no timer is
    started. *)
Theorem finish_too_few_is_atomic (s : AnnotationTool) :
  Z.of_nat (List.length (current_polygon s)) < 3 ->
  let r := finish_polygon s in
  state r = s /\
  annotations (state r) = annotations s /\
  current_centroid (state r) = current_centroid s /\
  current_index (state r) = current_index s /\
  (forall msec slot, ~ In (QTimer_singleShot msec slot) (events r)).
Proof.
  intros H r. subst r. rewrite finish_polygon_too_few by exact H.
  unfold state, events; cbn. repeat split.
  intros msec slot [E|[]]. discriminate E.
Qed.

Lemma finish_too_few_is_atomic_witness :
  let s := two_pending_with_centroid in
  Z.of_nat (List.length (current_polygon s)) < 3 /\
  annotations s = [("a.png"%string, mkEntry [(5, 5)])] /\
  current_centroid s = Some (5, 5) /\
  state (finish_polygon s) = s /\
  (forall msec slot, ~ In (QTimer_singleShot msec slot) (events (finish_polygon s))).
Proof.
  intros s.
  assert (H : Z.of_nat (List.length (current_polygon s)) < 3)
    by (vm_compute; reflexivity).
  destruct (finish_too_few_is_atomic s H) as (K1 & _ & _ & _ & K5).
  split; [exact H|]. split; [vm_compute; reflexivity|].
  split; [vm_compute; reflexivity|]. split; [exact K1 | exact K5].
Defined.

(* ================================================================== *)
(** * The store *)

(** C8.  In a dictionary with one binding per key, recording a centroid
    for [filename] appends it to the list of [filename]; the entry is
    created only when it is missing (the keys stay as they are, or
    [filename] is added last) and the other entries are untouched.  A second
    centroid for the same key, equal to the first or not, lands in the same
    entry behind the first, and the key still occurs once.  The marked count
    is the number of entries that hold a centroid: it grows by one when
    [filename] had none before and does not grow again with the second
    centroid. *)
Theorem record_appends (ann : Dict.t Entry) (filename : string) (c1 c2 : Z * Z) :
  Dict.wf ann ->
  let ann1 := record filename c1 ann in
  let ann2 := record filename c2 ann1 in
  Dict.get ann1 filename = Some (mkEntry (recorded ann filename ++ [c1])) /\
  Dict.keys ann1
    = (if Dict.mem filename ann then Dict.keys ann else Dict.keys ann ++ [filename]) /\
  (forall other, other <> filename -> Dict.get ann1 other = Dict.get ann other) /\
  Dict.get ann2 filename = Some (mkEntry (recorded ann filename ++ [c1; c2])) /\
  Dict.keys ann2 = Dict.keys ann1 /\
  count_occ string_dec (Dict.keys ann2) filename = 1%nat /\
  marked ann = Z.of_nat (count_entries ann) /\
  marked ann1
    = (if 0 <? Z.of_nat (List.length (recorded ann filename))
       then marked ann else marked ann + 1) /\
  marked ann2 = marked ann1.
Proof.
  intros Hwf ann1 ann2.
  assert (Hwf1 : Dict.wf ann1) by (apply record_wf; exact Hwf).
  assert (Hwf2 : Dict.wf ann2) by (apply record_wf; exact Hwf1).
  assert (G1 : Dict.get ann1 filename = Some (mkEntry (recorded ann filename ++ [c1])))
    by apply record_get.
  assert (M1 : Dict.mem filename ann1 = true) by (unfold Dict.mem; now rewrite G1).
  assert (R1 : recorded ann1 filename = recorded ann filename ++ [c1])
    by (unfold recorded at 1; now rewrite G1).
  split; [exact G1|].
  split; [apply record_keys|].
  split; [intros other Hne; now apply record_get_other|].
  split.
  { unfold ann2. rewrite record_get, R1, <- app_assoc. reflexivity. }
  split.
  { unfold ann2. rewrite record_keys, M1. reflexivity. }
  split.
  { apply NoDup_count_occ'; [exact Hwf2|].
    unfold ann2. rewrite record_keys, M1.
    destruct (in_dec string_dec filename (Dict.keys ann1)) as [Hin|Hnot];
      [exact Hin|].
    apply DictFacts.mem_false_notin in Hnot. congruence. }
  split; [now apply marked_count_entries|].
  split; [now apply marked_record|].
  unfold ann2. rewrite marked_record by exact Hwf1.
  rewrite R1, length_app. cbn.
  destruct (0 <? Z.of_nat (List.length (recorded ann filename) + 1)) eqn:E;
    [reflexivity|].
  apply Z.ltb_ge in E. lia.
Qed.

Lemma record_appends_witness :
  let ann := [("a.png"%string, mkEntry [(1, 2)])] in
  let ann2 := record "b.png" (5, 6) (record "b.png" (3, 4) ann) in
  Dict.wf ann /\
  Dict.get ann2 "b.png" = Some (mkEntry (recorded ann "b.png" ++ [(3, 4); (5, 6)])) /\
  ann2 = [("a.png"%string, mkEntry [(1, 2)]); ("b.png"%string, mkEntry [(3, 4); (5, 6)])] /\
  marked ann = 1 /\
  marked ann2 = 2.
Proof.
  intros ann ann2.
  assert (H : Dict.wf ann).
  { unfold Dict.wf; cbn. constructor; [intros [] | constructor]. }
  destruct (record_appends ann "b.png" (3, 4) (5, 6) H)
    as (_ & _ & _ & K4 & _).
  split; [exact H|]. split; [exact K4|].
  split; [vm_compute; reflexivity|].
  split; vm_compute; reflexivity.
Defined.

(** From the empty store: two centroids for one image give one entry with
    both, and that image counts once. *)
Example record_twice_from_empty :
  record "a.png" (3, 4) (record "a.png" (1, 2) [])
    = [("a.png"%string, mkEntry [(1, 2); (3, 4)])]
  /\ marked (record "a.png" (3, 4) (record "a.png" (1, 2) [])) = 1.
Proof. split; reflexivity. Qed.

(* ================================================================== *)
(** * Navigation on an empty list *)

(** C9.  With an empty image list [prev_image] and [next_image] return at
    their guard: the object, and so the current index, is unchanged, nothing
    is raised, and no event happens, in particular no image is read. *)
Theorem navigation_on_empty_list
    (imread : string -> option (Z * Z)) (s : AnnotationTool) :
  image_paths s = [] ->
  prev_image imread s = (inr tt, s, []) /\
  next_image imread s = (inr tt, s, []).
Proof.
  intros H. unfold prev_image, next_image, bind, get, ret.
  rewrite H. split; reflexivity.
Qed.

Lemma navigation_on_empty_list_witness :
  let s := AnnotationTool_init (Qt.mkQSize 900 700) in
  image_paths s = [] /\
  state (prev_image demo_imread s) = s /\
  current_index (state (next_image demo_imread s)) = current_index s /\
  events (next_image demo_imread s) = [].
Proof.
  intros s.
  assert (H : image_paths s = []) by reflexivity.
  destruct (navigation_on_empty_list demo_imread s H) as [P N].
  split; [exact H|]. rewrite P, N. repeat split.
Defined.

(* ================================================================== *)
(** * The zoom handlers *)

Lemma set_zoom_run (value : Z) (s : AnnotationTool) :
  exists s' ev,
    set_zoom value s = (inr tt, s', ev) /\
    zoom_of s' = Z.max 10 (Z.min 500 value) /\
    zoom_slider s' = zoom_slider s.
Proof.
  unfold set_zoom, bind, modify.
  set (s1 := set_image_label _ s).
  destruct (update_display_frame s1) as [R [F _]].
  destruct (update_display s1) as [[res s2] ev] eqn:E.
  unfold result, state in *; cbn [fst snd] in *.
  destruct res as [e|[]]; [discriminate R|].
  exists s2, ([] ++ ev). split; [reflexivity|].
  unfold same_session in F. unfold zoom_of. subst s1. cbn in F.
  intuition congruence.
Qed.

Lemma on_zoom_changed_run (value : Z) (s : AnnotationTool) :
  exists s' ev,
    on_zoom_changed value s = (inr tt, s', ev) /\
    zoom_of s' = Z.max 10 (Z.min 500 value) /\
    zoom_slider s' = zoom_slider s.
Proof.
  unfold on_zoom_changed, bind, modify.
  destruct (set_zoom_run value s) as (s1 & ev & E & Z1 & Z2).
  rewrite E. eexists _, _. split; [reflexivity|]. cbn. auto.
Qed.

Lemma zoom_slider_setValue_run (value : Z) (s : AnnotationTool) :
  exists s' ev, zoom_slider_setValue value s = (inr tt, s', ev).
Proof.
  unfold zoom_slider_setValue, bind, get, modify, ret.
  destruct (Z.max 10 (Z.min 500 value) =? zoom_slider s).
  - eexists _, _. reflexivity.
  - cbn. destruct (on_zoom_changed_run (Z.max 10 (Z.min 500 value))
                     (set_zoom_slider (Z.max 10 (Z.min 500 value)) s))
      as (s1 & ev & E & _). rewrite E. eexists _, _. reflexivity.
Qed.

Lemma adjust_zoom_run (zoom_in : bool) (s : AnnotationTool) :
  exists s' ev,
    adjust_zoom zoom_in s = (inr tt, s', ev) /\
    zoom_of s'
    = Z.min 500 (Z.max 10 (zoom_of s + (if zoom_in then 20 else -20))).
Proof.
  unfold adjust_zoom, bind, get, modify.
  set (new_zoom := Z.min 500 (Z.max 10 (_ + _))).
  destruct (zoom_slider_setValue_run new_zoom s) as (s1 & ev1 & E1). rewrite E1.
  destruct (set_zoom_run new_zoom s1) as (s2 & ev2 & E2 & Z2 & _). rewrite E2.
  eexists _, _. split; [reflexivity|].
  unfold zoom_of in *. cbn. rewrite Z2. subst new_zoom. cbv zeta.
  destruct zoom_in; lia.
Qed.


(* ================================================================== *)
(** * The zoom across every handler *)

Section KeepsZoom.

Context {A B : Type}.

Lemma keeps_ret (a : A) : keeps_zoom (ret a).
Proof. intros s. reflexivity. Qed.

Lemma keeps_get : keeps_zoom get.
Proof. intros s. reflexivity. Qed.

Lemma keeps_emit (e : Event) : keeps_zoom (emit e).
Proof. intros s. reflexivity. Qed.

Lemma keeps_lift (r : Py.Exception + A) : keeps_zoom (lift r).
Proof. intros s. reflexivity. Qed.

Lemma keeps_modify (f : AnnotationTool -> AnnotationTool) :
  (forall s, zoom_of (f s) = zoom_of s) -> keeps_zoom (modify f).
Proof. intros H s. apply H. Qed.

Lemma keeps_bind (m : M A) (k : A -> M B) :
  keeps_zoom m -> (forall a, keeps_zoom (k a)) -> keeps_zoom (bind m k).
Proof.
  intros Hm Hk s. unfold bind. specialize (Hm s).
  destruct (m s) as [[[e|a] s1] ev1]; unfold state in *; cbn in *; [exact Hm|].
  specialize (Hk a s1).
  destruct (k a s1) as [[r s2] ev2]; unfold state in *; cbn in *. congruence.
Qed.

End KeepsZoom.

Lemma keeps_update_display : keeps_zoom update_display.
Proof.
  intros s. destruct (update_display_frame s) as (_ & F & _).
  unfold same_session in F. unfold zoom_of. intuition.
Qed.

Ltac keeps_zoom_step :=
  lazymatch goal with
  | |- keeps_zoom (bind _ _) => apply keeps_bind; [|intros ?]
  | |- keeps_zoom (ret _) => apply keeps_ret
  | |- keeps_zoom get => apply keeps_get
  | |- keeps_zoom (emit _) => apply keeps_emit
  | |- keeps_zoom (lift _) => apply keeps_lift
  | |- keeps_zoom (modify _) => apply keeps_modify; intros ?; reflexivity
  | |- keeps_zoom update_display => apply keeps_update_display
  | |- keeps_zoom (match ?x with _ => _ end) => destruct x
  end.

Ltac keeps_zoom_tac := repeat (cbv beta zeta; keeps_zoom_step).

Lemma keeps_add_polygon_point (x y : Z) : keeps_zoom (add_polygon_point x y).
Proof. unfold add_polygon_point. keeps_zoom_tac. Qed.

Lemma keeps_handle_click (pos : Z * Z) : keeps_zoom (handle_click pos).
Proof.
  unfold handle_click. keeps_zoom_tac. apply keeps_add_polygon_point.
Qed.

Lemma keeps_update_marked_count : keeps_zoom update_marked_count.
Proof. unfold update_marked_count. keeps_zoom_tac. Qed.

Lemma keeps_finish_polygon : keeps_zoom finish_polygon.
Proof.
  unfold finish_polygon. keeps_zoom_tac; try apply keeps_update_marked_count.
Qed.

Lemma keeps_clear_current : keeps_zoom clear_current.
Proof. unfold clear_current. keeps_zoom_tac. Qed.

Lemma keeps_mousePressEvent (button : MouseButton) (pos : Z * Z) :
  keeps_zoom (mousePressEvent button pos).
Proof.
  unfold mousePressEvent. keeps_zoom_tac;
    first [apply keeps_handle_click | apply keeps_finish_polygon].
Qed.

Lemma keeps_load_current_image (imread : string -> option (Z * Z)) :
  keeps_zoom (load_current_image imread).
Proof.
  unfold load_current_image. keeps_zoom_tac; apply keeps_update_marked_count.
Qed.

Lemma keeps_save_centroids (save_path : string) (io_error : option string) :
  keeps_zoom (save_centroids save_path io_error).
Proof. unfold save_centroids. keeps_zoom_tac. Qed.

Lemma keeps_navigation (imread : string -> option (Z * Z)) :
  keeps_zoom (prev_image imread) /\ keeps_zoom (next_image imread) /\
  (forall row, keeps_zoom (load_selected_image imread row)) /\
  (forall dir_path listing, keeps_zoom (open_image_folder imread dir_path listing)).
Proof.
  repeat split; intros;
    unfold prev_image, next_image, load_selected_image, open_image_folder;
    keeps_zoom_tac;
    first [apply keeps_load_current_image | apply keeps_update_marked_count].
Qed.

(** Every handler leaves the zoom in 10..500 when it finds it there. *)
Lemma dispatch_zoom_in_range (imread : string -> option (Z * Z)) (g : Gesture)
    (s : AnnotationTool) :
  zoom_in_range s -> zoom_in_range (state (dispatch imread g s)).
Proof.
  unfold zoom_in_range. intros H.
  destruct (keeps_navigation imread) as (Kp & Kn & Ks & Ko).
  destruct g; cbn [dispatch].
  - destruct (adjust_zoom_run zoom_in s) as (s1 & ev & E & Z1).
    rewrite E. unfold state; cbn. rewrite Z1. destruct zoom_in; lia.
  - now rewrite keeps_mousePressEvent.
  - unfold zoom_slider_setValue, bind, get, modify, ret.
    destruct (_ =? _); [exact H|]. cbn.
    match goal with
    | |- context [on_zoom_changed ?v ?s0] =>
        destruct (on_zoom_changed_run v s0) as (s1 & ev & E & Z1 & _)
    end.
    rewrite E. unfold state; cbn. rewrite Z1. lia.
  - unfold zoom_to_fit, bind, modify.
    destruct (zoom_slider_setValue_run 100 s) as (s1 & ev1 & E1). rewrite E1.
    destruct (set_zoom_run 100 s1) as (s2 & ev2 & E2 & Z2 & _). rewrite E2.
    unfold state, zoom_of in *; cbn. rewrite Z2. lia.
  - now rewrite Kp.
  - now rewrite Kn.
  - now rewrite Ks.
  - now rewrite Ko.
  - now rewrite keeps_save_centroids.
  - now rewrite keeps_clear_current.
Qed.

Lemma run_zoom_in_range (imread : string -> option (Z * Z)) (gs : list Gesture)
    (sz : Qt.QSize) :
  zoom_in_range (run imread gs (AnnotationTool_init sz)).
Proof.
  unfold run.
  assert (I : zoom_in_range (AnnotationTool_init sz))
    by (unfold zoom_in_range, zoom_of; cbn; lia).
  revert I. generalize (AnnotationTool_init sz) as s.
  induction gs as [|g gs IH]; intros s I; cbn; [exact I|].
  apply IH. now apply dispatch_zoom_in_range.
Qed.

(** C7.  A new label starts at zoom 100.  [set_zoom] stores its argument
    bounded to 10..500, so the stored zoom is in that range whatever the
    argument: 1000 gives 500 and -5 gives 10.  [adjust_zoom] adds or
    subtracts 20 and bounds the sum in the same way, so a step up from 500
    stays at 500.  No other handler assigns the zoom: after any sequence of
    gestures the zoom is in 10..500. *)
Theorem zoom_stays_in_range :
  (forall (sz : Qt.QSize), zoom_of (AnnotationTool_init sz) = 100) /\
  (forall (value : Z) (s : AnnotationTool),
      let s' := state (set_zoom value s) in
      result (set_zoom value s) = inr tt /\
      zoom_of s' = Z.max 10 (Z.min 500 value) /\
      10 <= zoom_of s' <= 500) /\
  (forall s : AnnotationTool,
      zoom_of (state (set_zoom 1000 s)) = 500 /\
      zoom_of (state (set_zoom (-5) s)) = 10) /\
  (forall (zoom_in : bool) (s : AnnotationTool),
      let s' := state (adjust_zoom zoom_in s) in
      result (adjust_zoom zoom_in s) = inr tt /\
      zoom_of s' = Z.min 500 (Z.max 10 (zoom_of s + (if zoom_in then 20 else -20))) /\
      10 <= zoom_of s' <= 500) /\
  (forall s : AnnotationTool,
      zoom_of s = 500 -> zoom_of (state (adjust_zoom true s)) = 500) /\
  (forall (imread : string -> option (Z * Z)) (gs : list Gesture) (sz : Qt.QSize),
      10 <= zoom_of (run imread gs (AnnotationTool_init sz)) <= 500).
Proof.
  split; [reflexivity|].
  split.
  { intros value s. destruct (set_zoom_run value s) as (s1 & ev & E & Z1 & _).
    cbv zeta. rewrite E. unfold result, state; cbn. rewrite Z1.
    repeat split; lia. }
  split.
  { intros s.
    destruct (set_zoom_run 1000 s) as (s1 & ev1 & E1 & Z1 & _).
    destruct (set_zoom_run (-5) s) as (s2 & ev2 & E2 & Z2 & _).
    rewrite E1, E2. unfold state; cbn. rewrite Z1, Z2. split; reflexivity. }
  split.
  { intros zoom_in s. destruct (adjust_zoom_run zoom_in s) as (s1 & ev & E & Z1).
    cbv zeta. rewrite E. unfold result, state; cbn. rewrite Z1.
    destruct zoom_in; repeat split; lia. }
  split.
  { intros s H. destruct (adjust_zoom_run true s) as (s1 & ev & E & Z1).
    rewrite E. unfold state; cbn. rewrite Z1, H. reflexivity. }
  intros imread gs sz. apply run_zoom_in_range.
Qed.

Lemma zoom_stays_in_range_witness :
  let s := state (set_zoom 1000 demo_session) in
  zoom_of s = 500 /\ zoom_of (state (adjust_zoom true s)) = 500.
Proof.
  intros s.
  assert (H : zoom_of s = 500) by (vm_compute; reflexivity).
  split; [exact H|].
  exact (proj1 (proj2 (proj2 (proj2 (proj2 zoom_stays_in_range)))) s H).
Defined.

(* ================================================================== *)
(** * The exported rows *)

Lemma write_centroids_spec (filename : string) (e : Entry) (written : list (list PyVal)) :
  write_centroids filename (centroids e) written
  = written ++ rows_of_entry (filename, e).
Proof.
  unfold rows_of_entry; cbn [fst snd].
  generalize (centroids e) as cs. intros cs. revert written.
  induction cs as [|[cx cy] cs IH]; intros written; cbn.
  - now rewrite app_nil_r.
  - rewrite IH, <- app_assoc. reflexivity.
Qed.

Lemma write_entries_spec (items : list (string * Entry)) (written : list (list PyVal)) :
  write_entries items written = written ++ flat_map rows_of_entry items.
Proof.
  revert written. induction items as [|[filename data] items IH]; intros written; cbn.
  - now rewrite app_nil_r.
  - rewrite IH, write_centroids_spec, <- app_assoc. reflexivity.
Qed.

Lemma write_rows_spec (ann : Dict.t Entry) : write_rows ann = export_rows ann.
Proof. unfold write_rows. rewrite write_entries_spec. reflexivity. Qed.

Lemma length_export_rows (ann : Dict.t Entry) :
  List.length (export_rows ann) = S (total_centroids ann).
Proof.
  unfold export_rows, total_centroids. cbn. f_equal.
  induction ann as [|item ann IH]; cbn; [reflexivity|].
  rewrite length_app, IH. unfold rows_of_entry. now rewrite length_map.
Qed.

(** The line of a row whose key needs no quoting. *)
Lemma csv_line_plain (filename : string) (cx cy : Z) :
  any_char needs_quote filename = false ->
  csv_line [PyStr filename; PyInt cx; PyInt cy]
  = (filename ++ "," ++ Py.str cx ++ "," ++ Py.str cy)%string.
Proof.
  intros H. unfold csv_line. cbn [map csv_field]. rewrite H. reflexivity.
Qed.

(** A new image goes behind every row written for the earlier images. *)
Lemma export_rows_record_new (ann : Dict.t Entry) (filename : string) (c : Z * Z) :
  Dict.mem filename ann = false ->
  export_rows (record filename c ann)
  = export_rows ann ++ [[PyStr filename; PyInt (fst c); PyInt (snd c)]].
Proof.
  intros H. rewrite record_unfold, H, set_set.
  unfold export_rows. cbn [app]. f_equal.
  unfold Dict.mem in H.
  induction ann as [|[k e] ann IH]; cbn in *; [reflexivity|].
  destruct (String.eqb filename k); [discriminate H|].
  cbn. rewrite IH by exact H. now rewrite app_assoc.
Qed.

(** A further centroid of an image goes behind the rows of that image and
    before the rows of the images that were entered later. *)
Lemma export_rows_record_split (front back : Dict.t Entry) (filename : string)
    (e : Entry) (c : Z * Z) :
  Dict.mem filename front = false ->
  export_rows (record filename c (front ++ (filename, e) :: back))
  = export_rows (front ++ [(filename, e)])
      ++ [[PyStr filename; PyInt (fst c); PyInt (snd c)]]
      ++ flat_map rows_of_entry back.
Proof.
  intros H. rewrite record_unfold.
  assert (G : Dict.get (front ++ (filename, e) :: back) filename = Some e).
  { unfold Dict.mem in H. induction front as [|[k0 e0] front IH]; cbn in *.
    - now rewrite String.eqb_refl.
    - destruct (String.eqb filename k0); [discriminate H|]. now apply IH. }
  unfold Dict.mem, recorded. rewrite G.
  unfold export_rows. cbn [app]. f_equal.
  unfold Dict.mem in H.
  induction front as [|[k0 e0] front IH]; cbn in *.
  - rewrite String.eqb_refl. cbn. unfold rows_of_entry at 1 3; cbn.
    rewrite map_app, app_nil_r, <- app_assoc. reflexivity.
  - destruct (String.eqb filename k0); [discriminate H|].
    cbn. rewrite IH by (try exact H; exact G) . now rewrite <- !app_assoc.
Qed.

(** C6, counterexample.  For the empty store the guard at the head of
    [save_centroids] warns and returns: no file, so no header row, is
    written. *)
Lemma export_of_empty_store_writes_nothing :
  let s := AnnotationTool_init (Qt.mkQSize 900 700) in
  annotations s = [] /\
  events (save_centroids "out.csv" None s)
    = [QMessageBox_warning "警告" "没有可保存的标注！"] /\
  ~ (exists rows, In (file_written "out.csv" rows)
                     (events (save_centroids "out.csv" None s))).
Proof.
  cbv zeta. split; [reflexivity|]. split; [reflexivity|].
  intros [rows [H|[]]]. discriminate H.
Qed.

(** C6, for a store that is not empty.  When the store is not empty, a destination is chosen and
    the file can be written, [save_centroids] writes the header row
    [filename, centroid_x, centroid_y] and then one row
    [key, x, y] for every recorded centroid, the entries in their order of
    creation and the centroids of an entry in their order of insertion;
    the store is not changed.  For the store
    {a.png: [(1,2)], b.png: [(3,4),(5,6)]} the lines are the header,
    a.png,1,2 then b.png,3,4 then b.png,5,6. *)
Theorem save_centroids_rows :
  (forall (s : AnnotationTool) (save_path : string),
      annotations s <> [] ->
      save_path <> ""%string ->
      let r := save_centroids save_path None s in
      result r = inr tt /\
      state r = s /\
      (exists info, events r
         = [file_written save_path (export_rows (annotations s)); info]) /\
      List.length (export_rows (annotations s))
        = S (total_centroids (annotations s)))
  /\ map csv_line (export_rows example_store)
     = ["filename,centroid_x,centroid_y"; "a.png,1,2"; "b.png,3,4"; "b.png,5,6"]%string.
Proof.
  split; [|reflexivity].
  intros s save_path Hann Hpath r. subst r.
  unfold save_centroids, bind, get, emit.
  destruct (annotations s) as [|item rest] eqn:E; [contradiction|].
  apply String.eqb_neq in Hpath. rewrite Hpath.
  unfold result, state, events; cbn -[write_rows export_rows total_centroids].
  rewrite write_rows_spec.
  split; [reflexivity|]. split; [reflexivity|].
  split; [eexists; reflexivity|].
  apply length_export_rows.
Qed.

Lemma save_centroids_rows_witness :
  let s := set_annotations example_store demo_session in
  annotations s <> [] /\
  "out.csv"%string <> ""%string /\
  (exists info, events (save_centroids "out.csv" None s)
     = [file_written "out.csv" (export_rows (annotations s)); info]).
Proof.
  intros s.
  assert (H1 : annotations s <> []) by (intro H; discriminate H).
  assert (H2 : "out.csv"%string <> ""%string) by (intro H; discriminate H).
  destruct (proj1 save_centroids_rows s "out.csv"%string H1 H2) as (_ & _ & K & _).
  split; [exact H1|]. split; [exact H2 | exact K].
Defined.

(* ================================================================== *)
(** * Clicks *)

(** On a rectangle with positive width and height [contains] is the test
    of the closed rectangle. *)
Lemma contains_closed (rect : Qt.QRectF) (px py : Q) :
  (0 < Qt.w rect)%Q -> (0 < Qt.h rect)%Q ->
  Qt.contains rect px py = true <->
  (Qt.x rect <= px /\ px <= Qt.x rect + Qt.w rect /\
   Qt.y rect <= py /\ py <= Qt.y rect + Qt.h rect)%Q.
Proof.
  intros Hw Hh. unfold Qt.contains.
  assert (Ew : Qlt_bool (Qt.w rect) 0 = false) by (apply Qlt_bool_false_iff; lra).
  assert (Eh : Qlt_bool (Qt.h rect) 0 = false) by (apply Qlt_bool_false_iff; lra).
  rewrite Ew, Eh.
  assert (Nw : Qeq_bool (Qt.x rect) (Qt.x rect + Qt.w rect) = false)
    by (apply Qeq_bool_false; lra).
  assert (Nh : Qeq_bool (Qt.y rect) (Qt.y rect + Qt.h rect) = false)
    by (apply Qeq_bool_false; lra).
  rewrite Nw, Nh.
  destruct (Qlt_bool px (Qt.x rect)) eqn:E1;
  destruct (Qlt_bool (Qt.x rect + Qt.w rect) px) eqn:E2;
  destruct (Qlt_bool py (Qt.y rect)) eqn:E3;
  destruct (Qlt_bool (Qt.y rect + Qt.h rect) py) eqn:E4; cbn;
  rewrite ?Qlt_bool_iff, ?Qlt_bool_false_iff in *;
  split; try discriminate; try (intros _; repeat split; assumption);
  intros (A & B & C & D); lra.
Qed.

(** A click outside the closed rendered rectangle is ignored. *)
Lemma click_outside_ignored (rect : Qt.QRectF) (W H : Z) (px py : Q) :
  (0 < Qt.w rect)%Q -> (0 < Qt.h rect)%Q ->
  (px < Qt.x rect \/ Qt.x rect + Qt.w rect < px \/
   py < Qt.y rect \/ Qt.y rect + Qt.h rect < py)%Q ->
  click_to_original rect W H px py = None.
Proof.
  intros Hw Hh Hout. unfold click_to_original.
  destruct (Qt.contains rect px py) eqn:E; [|reflexivity].
  apply contains_closed in E; [|assumption..].
  destruct E as (A & B & C & D). exfalso. lra.
Qed.

(** The fraction of the extent [w] at which [p] lies, times [n], cut. *)
Lemma scaled_fraction_bounds (p o w : Q) (n : Z) :
  (0 < w)%Q -> (o <= p)%Q -> (p <= o + w)%Q -> 0 <= n ->
  0 <= Py.int ((p - o) / w * inject_Z n) <= n /\
  ((p < o + w)%Q -> 0 < n -> Py.int ((p - o) / w * inject_Z n) < n).
Proof.
  intros Hw Hlo Hhi Hn.
  set (t := ((p - o) / w)%Q).
  assert (T0 : (0 <= t)%Q).
  { unfold t. apply Qle_shift_div_l; [exact Hw|]. lra. }
  assert (T1 : (t <= 1)%Q).
  { unfold t. apply Qle_shift_div_r; [exact Hw|]. lra. }
  assert (N0 : (0 <= inject_Z n)%Q).
  { unfold Qle, inject_Z; cbn. lia. }
  assert (P0 : (0 <= t * inject_Z n)%Q) by (apply Qmult_le_0_compat; assumption).
  assert (P1 : (t * inject_Z n <= inject_Z n)%Q).
  { setoid_replace (inject_Z n) with (1 * inject_Z n)%Q at 2 by ring.
    apply Qmult_le_compat_r; assumption. }
  destruct (int_nonneg_bounds _ P0) as [Ilo Ihi].
  set (c := Py.int (t * inject_Z n)) in *.
  assert (C0 : (-1 < inject_Z c)%Q) by lra.
  assert (C1 : (inject_Z c <= inject_Z n)%Q) by lra.
  split.
  - unfold Qlt, Qle, inject_Z in C0, C1; cbn in C0, C1. lia.
  - intros Hlt Hpos.
    assert (T2 : (t < 1)%Q).
    { unfold t. apply Qlt_shift_div_r; [exact Hw|]. lra. }
    assert (N1 : (0 < inject_Z n)%Q).
    { unfold Qlt, inject_Z; cbn. lia. }
    assert (P2 : (t * inject_Z n < inject_Z n)%Q).
    { setoid_replace (inject_Z n) with (1 * inject_Z n)%Q at 2 by ring.
      apply Qmult_lt_compat_r; assumption. }
    assert (C2 : (inject_Z c < inject_Z n)%Q) by lra.
    unfold Qlt, inject_Z in C2; cbn in C2. lia.
Qed.

(** A click that is accepted yields a vertex from (0,0) up to, and
    including, (width, height); a click inside the half-open rectangle
    yields a pixel of the image. *)
Lemma click_accepted_bounds (rect : Qt.QRectF) (W H : Z) (px py : Q) (v : Z * Z) :
  (0 < Qt.w rect)%Q -> (0 < Qt.h rect)%Q -> 0 < W -> 0 < H ->
  click_to_original rect W H px py = Some v ->
  0 <= fst v <= W /\ 0 <= snd v <= H /\
  ((px < Qt.x rect + Qt.w rect)%Q -> fst v < W) /\
  ((py < Qt.y rect + Qt.h rect)%Q -> snd v < H).
Proof.
  intros Hw Hh HW HH. unfold click_to_original.
  destruct (Qt.contains rect px py) eqn:E; [|discriminate].
  apply contains_closed in E; [|assumption..].
  destruct E as (A & B & C & D). cbn. intros [= <-]. cbn [fst snd].
  destruct (scaled_fraction_bounds px (Qt.x rect) (Qt.w rect) W) as [X1 X2];
    try assumption; try lia.
  destruct (scaled_fraction_bounds py (Qt.y rect) (Qt.h rect) H) as [Y1 Y2];
    try assumption; try lia.
  repeat split; try lia; auto.
Qed.

(** C4.  In the session [demo_session] (label 900 x 700, image 100 x 100,
    zoom 100) the rendered rectangle starts at x = 100 and is 700 wide.
    The click at (800, 350) is not inside [100, 800) x [0, 700), yet
    [handle_click] maps it to the vertex (100, 50) and appends it: its x is
    the width of the image, one past the last pixel column. *)
Theorem handle_click_on_right_edge :
  let s := demo_session in
  let rect := _image_rect (image_label s) in
  original_width s = 100 /\
  (Qt.x rect + Qt.w rect <= inject_Z (fst edge_click))%Q /\
  click_to_original rect (original_width s) (original_height s)
    (inject_Z (fst edge_click)) (inject_Z (snd edge_click)) = Some (100, 50) /\
  current_polygon (state (handle_click edge_click s)) = [(100, 50)] /\
  ~ (fst (100, 50) < original_width s).
Proof.
  cbv zeta. split; [reflexivity|].
  split; [vm_compute; discriminate|].
  split; [vm_compute; reflexivity|].
  split; [vm_compute; reflexivity|].
  vm_compute. discriminate.
Qed.

(* ================================================================== *)
(** * From the image to the display and back *)


Lemma inject_Z_nonneg (n : Z) : 0 <= n -> (0 <= inject_Z n)%Q.
Proof. intros H. unfold Qle, inject_Z; cbn. lia. Qed.


(** The transform that [update_display] installs for a loaded image. *)
Lemma update_display_transform (s : AnnotationTool) (height width : Z) :
  original_image s = Some (height, width) ->
  let s' := state (update_display s) in
  let label_size := size (image_label s) in
  let scale := Qmin (inject_Z (Qt.width label_size) / inject_Z width)
                    (inject_Z (Qt.height label_size) / inject_Z height) in
  let zoom_factor := zoom_factor_of (_zoom (image_label s)) in
  let scaled_width := Py.int (inject_Z width * scale * zoom_factor) in
  let scaled_height := Py.int (inject_Z height * scale * zoom_factor) in
  scale_factor s' = scale /\
  _zoom (image_label s') = _zoom (image_label s) /\
  _image_rect (image_label s')
    = Qt.mkQRectF (inject_Z (Qt.width label_size - scaled_width) / 2)
        (inject_Z (Qt.height label_size - scaled_height) / 2)
        (inject_Z scaled_width) (inject_Z scaled_height) /\
  pixmap (image_label s') = Some (Qt.scaled scaled_width scaled_height) /\
  original_width s' = original_width s /\
  original_height s' = original_height s.
Proof.
  intros Himg. unfold update_display, bind, get, modify, emit, state.
  rewrite Himg. cbn. repeat split.
Qed.




(* ================================================================== *)
(** * Centroids of simple shapes *)




Lemma inject_Z_sub (x y : Z) : (inject_Z (x - y) == inject_Z x - inject_Z y)%Q.
Proof.
  unfold Z.sub, Qminus. now rewrite inject_Z_plus, inject_Z_opp.
Qed.






(* ================================================================== *)
(** * Vertices on one horizontal or vertical line *)








(* ================================================================== *)
(** * File names *)

Lemma string_app_assoc (a b c : string) : ((a ++ b) ++ c = a ++ (b ++ c))%string.
Proof. induction a as [|ch a IH]; cbn; [reflexivity | now rewrite IH]. Qed.

Lemma string_length_app (a b : string) :
  String.length (a ++ b) = (String.length a + String.length b)%nat.
Proof. induction a as [|ch a IH]; cbn; [reflexivity | now rewrite IH]. Qed.

Lemma drop_length_app (a f : string) : Py.drop (String.length a) (a ++ f) = f.
Proof. induction a as [|ch a IH]; cbn; [now destruct f | exact IH]. Qed.

Lemma rfind_slash_free (f : string) : slash_free f -> Py.rfind_slash_succ f = 0%nat.
Proof.
  unfold slash_free.
  induction f as [|ch f IH]; cbn [any_char Py.rfind_slash_succ]; [reflexivity|].
  intros H. apply orb_false_iff in H. destruct H as [Hc Hf].
  rewrite (IH Hf). rewrite Ascii.eqb_sym in Hc. now rewrite Hc.
Qed.

(** The slash search sees only the part before a name without a slash. *)
Lemma rfind_app_slash_free (a f : string) :
  slash_free f -> Py.rfind_slash_succ (a ++ f) = Py.rfind_slash_succ a.
Proof.
  intros H. induction a as [|ch a IH]; cbn.
  - now apply rfind_slash_free.
  - now rewrite IH.
Qed.

Lemma rfind_ends_with_slash (a : string) :
  Py.rfind_slash_succ (a ++ "/") = S (String.length a).
Proof. induction a as [|ch a IH]; cbn; [reflexivity | now rewrite IH]. Qed.

Lemma endswith_slash_cons (ch : ascii) (a : string) :
  Py.endswith (String ch a) "/"
  = match a with
    | EmptyString => Ascii.eqb ch "/"
    | String _ _ => Py.endswith a "/"
    end.
Proof.
  unfold Py.endswith. destruct a as [|c2 a].
  - cbn [String.length Nat.leb Nat.sub substring andb String.eqb].
    now destruct (Ascii.eqb ch "/").
  - cbn [String.length Nat.leb Nat.sub substring andb].
    now rewrite Nat.sub_0_r.
Qed.

Lemma endswith_slash_rfind (a : string) :
  Py.endswith a "/" = true -> Py.rfind_slash_succ a = String.length a.
Proof.
  induction a as [|ch a IH]; [discriminate|].
  rewrite endswith_slash_cons. destruct a as [|c2 a].
  - intros E. cbn. now rewrite E.
  - intros E. specialize (IH E). cbn [Py.rfind_slash_succ String.length] in *.
    now rewrite IH.
Qed.

Lemma prefix_slash_free (f : string) : slash_free f -> String.prefix "/" f = false.
Proof.
  unfold slash_free. destruct f as [|ch f]; [reflexivity|].
  cbn [any_char String.prefix]. intros H.
  apply orb_false_iff in H. destruct H as [Hc _].
  destruct (ascii_dec "/" ch) as [<-|Hne]; [|reflexivity].
  rewrite Ascii.eqb_refl in Hc. discriminate Hc.
Qed.

Lemma basename_join (dir f : string) :
  slash_free f -> Py.basename (Py.join dir f) = f.
Proof.
  intros H. unfold Py.join. rewrite (prefix_slash_free f H).
  destruct (String.eqb dir "") eqn:Ed; cbn [orb].
  - apply String.eqb_eq in Ed. subst. cbn. unfold Py.basename.
    now rewrite (rfind_slash_free f H).
  - destruct (Py.endswith dir "/") eqn:Es; unfold Py.basename.
    + rewrite (rfind_app_slash_free dir f H), (endswith_slash_rfind dir Es).
      apply drop_length_app.
    + rewrite <- string_app_assoc, (rfind_app_slash_free _ f H).
      rewrite rfind_ends_with_slash.
      replace (S (String.length dir)) with (String.length (dir ++ "/"))
        by (rewrite string_length_app; cbn; lia).
      apply drop_length_app.
Qed.

(** X4.  For a name without a slash, as a directory listing gives them,
    [basename] undoes [join]: the key under which a centroid is stored is
    the listed file name, and two different names of one directory never
    share a key. *)
Theorem basename_undoes_join (dir f g : string) :
  slash_free f -> slash_free g ->
  Py.basename (Py.join dir f) = f /\
  (f <> g -> Py.basename (Py.join dir f) <> Py.basename (Py.join dir g)).
Proof.
  intros Hf Hg. rewrite !basename_join by assumption. split; auto.
Qed.

Lemma basename_undoes_join_witness :
  slash_free "a.png" /\ slash_free "b.PNG" /\
  Py.basename (Py.join "/data/set 1" "a.png") = "a.png"%string /\
  Py.basename (Py.join "/data/set 1" "a.png") <> Py.basename (Py.join "/data/set 1" "b.PNG").
Proof.
  assert (H1 : slash_free "a.png") by reflexivity.
  assert (H2 : slash_free "b.PNG") by reflexivity.
  destruct (basename_undoes_join "/data/set 1" "a.png" "b.PNG" H1 H2) as [K1 K2].
  split; [exact H1|]. split; [exact H2|]. split; [exact K1|].
  apply K2. intros E. discriminate E.
Defined.

Lemma lower_app (a b : string) : Py.lower (a ++ b) = (Py.lower a ++ Py.lower b)%string.
Proof. induction a as [|ch a IH]; cbn; [reflexivity | now rewrite IH]. Qed.

Lemma substring_all (b : string) : substring 0 (String.length b) b = b.
Proof. induction b as [|ch b IH]; cbn; [reflexivity | now rewrite IH]. Qed.

Lemma substring_app_r (a b : string) :
  substring (String.length a) (String.length b) (a ++ b) = b.
Proof. induction a as [|ch a IH]; cbn; [apply substring_all | exact IH]. Qed.

Lemma endswith_app (a b : string) : Py.endswith (a ++ b) b = true.
Proof.
  unfold Py.endswith. rewrite string_length_app.
  replace (String.length a + String.length b - String.length b)%nat
    with (String.length a) by lia.
  rewrite substring_app_r, String.eqb_refl.
  apply andb_true_iff. split; [apply Nat.leb_le; lia | reflexivity].
Qed.

(** X5.  The listing filter looks only at the end of the name and not at
    the case of its letters: a name is kept whenever its ending, in lower
    case, is one of the six suffixes, whatever stands before it. *)
Theorem image_suffix_any_case (stem ext : string) :
  In (Py.lower ext) image_suffixes -> is_image_file (stem ++ ext) = true.
Proof.
  intros H. unfold is_image_file, Py.endswith_any.
  apply existsb_exists. exists (Py.lower ext). split; [exact H|].
  rewrite lower_app. apply endswith_app.
Qed.

Lemma image_suffix_any_case_witness :
  In (Py.lower ".JpEg") image_suffixes /\ is_image_file ("IMG 0001" ++ ".JpEg") = true.
Proof.
  assert (H : In (Py.lower ".JpEg") image_suffixes)
    by (vm_compute; right; right; left; reflexivity).
  split; [exact H|]. exact (image_suffix_any_case "IMG 0001" ".JpEg" H).
Defined.

(* ================================================================== *)
(** * Views of the object that a method leaves alone *)

Section Preserves.

Context {T A B : Type} (f : AnnotationTool -> T).

Lemma preserves_ret (a : A) : preserves f (ret a).
Proof. intros s. reflexivity. Qed.

Lemma preserves_get : preserves f get.
Proof. intros s. reflexivity. Qed.

Lemma preserves_emit (e : Event) : preserves f (emit e).
Proof. intros s. reflexivity. Qed.

Lemma preserves_lift (r : Py.Exception + A) : preserves f (lift r).
Proof. intros s. reflexivity. Qed.

Lemma preserves_modify (g : AnnotationTool -> AnnotationTool) :
  (forall s, f (g s) = f s) -> preserves f (modify g).
Proof. intros H s. apply H. Qed.

Lemma preserves_bind (m : M A) (k : A -> M B) :
  preserves f m -> (forall a, preserves f (k a)) -> preserves f (bind m k).
Proof.
  intros Hm Hk s. unfold bind. specialize (Hm s).
  destruct (m s) as [[[e|a] s1] ev1]; unfold state in *; cbn in *; [exact Hm|].
  specialize (Hk a s1).
  destruct (k a s1) as [[r s2] ev2]; unfold state in *; cbn in *. congruence.
Qed.

End Preserves.

(** [update_display] assigns the scale factor, the rectangle and the
    pixmap; a view that does not read them is decided by evaluation. *)
Ltac preserves_update_display :=
  let s := fresh "s" in
  intros s; unfold update_display, bind, get, modify, emit, ret, state;
  destruct (original_image s) as [[? ?]|]; reflexivity.

Ltac preserves_step :=
  lazymatch goal with
  | |- preserves _ (bind _ _) => apply preserves_bind; [|intros ?]
  | |- preserves _ (ret _) => apply preserves_ret
  | |- preserves _ get => apply preserves_get
  | |- preserves _ (emit _) => apply preserves_emit
  | |- preserves _ (lift _) => apply preserves_lift
  | |- preserves _ (modify _) => apply preserves_modify; intros ?; reflexivity
  | |- preserves _ update_display => preserves_update_display
  | |- preserves _ (match ?x with _ => _ end) => destruct x
  end.

Ltac preserves_tac :=
  repeat (cbv beta zeta;
          first [ preserves_step
                | progress unfold update_marked_count, add_polygon_point,
                    handle_click, finish_polygon, clear_current,
                    mousePressEvent, load_current_image, prev_image,
                    next_image, load_selected_image, open_image_folder,
                    save_centroids, set_zoom, on_zoom_changed,
                    zoom_slider_setValue, adjust_zoom, zoom_to_fit,
                    wheelEvent, dispatch ]).

(** An invariant of every gesture holds after every sequence of them. *)
Lemma run_invariant (I : AnnotationTool -> Prop)
    (imread : string -> option (Z * Z)) :
  (forall g s, I s -> I (state (dispatch imread g s))) ->
  forall gs s, I s -> I (run imread gs s).
Proof.
  intros Hstep gs. unfold run.
  induction gs as [|g gs IH]; intros s Hs; cbn; [exact Hs|].
  apply IH. now apply Hstep.
Qed.

(* ================================================================== *)
(** * The store under the gestures *)

Lemma preserves_store_dispatch (imread : string -> option (Z * Z)) (g : Gesture) :
  writes_store g = false -> preserves store_of (dispatch imread g).
Proof.
  intros H. destruct g as [zi|b pos|v| | | |row|d l|p e| ]; try discriminate H.
  all: try (destruct b; try discriminate H).
  all: preserves_tac.
Qed.

(** X6.  Only finishing a polygon (the right mouse button) and opening a
    folder can write the store: every other gesture, whatever its
    arguments and whatever the images decode to, leaves the annotations
    and the counter as they are.  So centroids survive navigation,
    zooming, clearing and exporting. *)
Theorem store_written_only_by_finish_and_open
    (imread : string -> option (Z * Z)) (g : Gesture) (s : AnnotationTool) :
  writes_store g = false ->
  annotations (state (dispatch imread g s)) = annotations s /\
  marked_count (state (dispatch imread g s)) = marked_count s.
Proof.
  intros H. pose proof (preserves_store_dispatch imread g H s) as P.
  unfold store_of in P. now inversion P.
Qed.

Lemma store_written_only_by_finish_and_open_witness :
  writes_store next = false /\
  annotations (state (dispatch demo_imread next two_pending_with_centroid))
    = annotations two_pending_with_centroid /\
  marked_count (state (dispatch demo_imread next two_pending_with_centroid))
    = marked_count two_pending_with_centroid.
Proof.
  assert (H : writes_store next = false) by reflexivity.
  split; [exact H|].
  exact (store_written_only_by_finish_and_open demo_imread next
           two_pending_with_centroid H).
Defined.

Lemma store_ok_store_of (s s' : AnnotationTool) :
  store_of s' = store_of s -> store_ok s -> store_ok s'.
Proof.
  unfold store_of, store_ok. intros E. inversion E as [[Ea Em]].
  now rewrite Ea, Em.
Qed.

Lemma Forall_set (Q : Entry -> Prop) (d : Dict.t Entry) (k : string) (v : Entry) :
  Forall (fun item => Q (snd item)) d -> Q v ->
  Forall (fun item => Q (snd item)) (Dict.set d k v).
Proof.
  intros Hd Hv. induction d as [|[k0 v0] d IH]; cbn.
  - repeat constructor. exact Hv.
  - inversion Hd as [|? ? H0 Hrest]; subst.
    destruct (String.eqb k k0); constructor; auto.
Qed.

Lemma total_centroids_set (d : Dict.t Entry) (k : string) (v : Entry) :
  (total_centroids (Dict.set d k v) + List.length (recorded d k)
   = total_centroids d + List.length (centroids v))%nat.
Proof.
  unfold total_centroids, recorded, list_sum.
  induction d as [|[k0 v0] d IH]; cbn [Dict.set Dict.get map fold_right fst snd].
  - cbn. lia.
  - destruct (String.eqb k k0); cbn [map fold_right fst snd centroids]; lia.
Qed.

Lemma total_centroids_record (filename : string) (c : Z * Z) (ann : Dict.t Entry) :
  total_centroids (record filename c ann) = S (total_centroids ann).
Proof.
  rewrite record_unfold. destruct (Dict.mem filename ann) eqn:E.
  - pose proof (total_centroids_set ann filename
                  (mkEntry (recorded ann filename ++ [c]))) as H.
    cbn [centroids] in H. rewrite length_app in H. cbn in H. lia.
  - rewrite set_set.
    pose proof (total_centroids_set ann filename (mkEntry [c])) as H.
    assert (R : recorded ann filename = []).
    { unfold recorded, Dict.mem in *. now destruct (Dict.get ann filename). }
    rewrite R in H. cbn in H. lia.
Qed.

Lemma store_ok_record (s s' : AnnotationTool) (filename : string) (c : Z * Z) :
  store_of s' = (record filename c (annotations s), marked_count s + 1) ->
  store_ok s -> store_ok s'.
Proof.
  unfold store_of, store_ok. intros E (Hwf & Hne & Hcount).
  inversion E as [[Ea Em]]. rewrite Ea, Em. split; [|split].
  - now apply record_wf.
  - rewrite record_unfold.
    destruct (Dict.mem filename (annotations s)); rewrite ?set_set;
      apply (Forall_set (fun e => centroids e <> [])); try assumption;
      cbn [centroids]; intros Hnil;
      first [discriminate Hnil | apply app_eq_nil in Hnil; destruct Hnil; discriminate].
  - rewrite total_centroids_record, Hcount. lia.
Qed.

(** What [finish_polygon] does to the store: nothing, or one [record]. *)
Lemma finish_polygon_store (s : AnnotationTool) :
  store_of (state (finish_polygon s)) = store_of s \/
  exists filename c,
    store_of (state (finish_polygon s))
    = (record filename c (annotations s), marked_count s + 1).
Proof.
  unfold finish_polygon, bind, get, lift, modify, emit, update_marked_count.
  destruct (Z.of_nat (List.length (current_polygon s)) <? 3); [now left|].
  destruct (Py.getitem (image_paths s) (current_index s)) as [e|path];
    [now left|].
  right. exists (Py.basename path), (calculate_centroid (current_polygon s)).
  cbn -[calculate_centroid record Py.basename Py.str String.append update_display].
  match goal with |- context [update_display ?s1] => set (s' := s1) end.
  assert (P : preserves store_of update_display) by preserves_update_display.
  specialize (P s').
  destruct (update_display s') as [[res s2] ev].
  unfold state in *; cbn [fst snd] in *.
  destruct res as [e|[]]; cbn [fst snd]; [exact P|].
  destruct (auto_advance s); cbn [fst snd]; exact P.
Qed.

(** How a run goes through the primitive steps. *)
Lemma bind_modify {B : Type} (g : AnnotationTool -> AnnotationTool)
    (k : unit -> M B) (s : AnnotationTool) :
  bind (modify g) k s = k tt (g s).
Proof.
  unfold bind, modify. destruct (k tt (g s)) as [[r s2] ev]. reflexivity.
Qed.

Lemma bind_get {B : Type} (k : AnnotationTool -> M B) (s : AnnotationTool) :
  bind get k s = k s s.
Proof.
  unfold bind, get. destruct (k s s) as [[r s2] ev]. reflexivity.
Qed.

Lemma bind_emit {B : Type} (e : Event) (k : unit -> M B) (s : AnnotationTool) :
  bind (emit e) k s
  = (result (k tt s), state (k tt s), e :: events (k tt s)).
Proof.
  unfold bind, emit, result, state, events.
  destruct (k tt s) as [[r s2] ev]. reflexivity.
Qed.

(** What [open_image_folder] does to the store: nothing, or a reset. *)
Lemma open_image_folder_store (imread : string -> option (Z * Z))
    (dir_path : string) (listing : list string) (s : AnnotationTool) :
  store_of (state (open_image_folder imread dir_path listing s)) = store_of s \/
  store_of (state (open_image_folder imread dir_path listing s)) = ([], 0).
Proof.
  unfold open_image_folder.
  destruct (String.eqb dir_path ""); [now left|].
  rewrite bind_modify, bind_get. cbn [image_paths set_image_paths].
  destruct (map _ _) as [|p ps] eqn:El; [now left|]. right.
  rewrite !bind_modify.
  assert (P : preserves store_of
                (load_current_image imread ;; update_marked_count))
    by preserves_tac.
  rewrite P. reflexivity.
Qed.

Lemma dispatch_store_ok (imread : string -> option (Z * Z)) (g : Gesture)
    (s : AnnotationTool) :
  store_ok s -> store_ok (state (dispatch imread g s)).
Proof.
  intros Hs. destruct (writes_store g) eqn:W.
  - destruct g as [zi|b pos|v| | | |row|d l|p e| ]; try discriminate W.
    + destruct b; try discriminate W. cbn [dispatch].
      unfold mousePressEvent. rewrite bind_get.
      destruct (finish_polygon_store s) as [F|(k & c & F)].
      * now apply (store_ok_store_of s).
      * now apply (store_ok_record s _ k c).
    + cbn [dispatch].
      destruct (open_image_folder_store imread d l s) as [F|F].
      * now apply (store_ok_store_of s).
      * clear Hs. revert F. unfold store_of, store_ok.
        intros [= Ea Em]. rewrite Ea, Em. repeat split; constructor.
  - apply (store_ok_store_of s); [|exact Hs].
    apply (preserves_store_dispatch imread g W).
Qed.

Lemma count_entries_all (d : Dict.t Entry) :
  Forall (fun item => centroids (snd item) <> []) d ->
  count_entries d = List.length d.
Proof.
  unfold count_entries. induction 1 as [|[k e] d He _ IH]; cbn; [reflexivity|].
  unfold has_centroids at 1. cbn [snd] in *.
  destruct (centroids e) as [|c cs]; [contradiction|]. cbn. now rewrite IH.
Qed.

(** X7.  After any sequence of gestures from a new window the store has
    one entry per key and no entry without a centroid, so the marked count
    shown is the number of entries; the counter [marked_count] is the
    number of centroids stored, which is the number of rows an export
    writes after the header. *)
Theorem store_after_any_gestures
    (imread : string -> option (Z * Z)) (gs : list Gesture) (sz : Qt.QSize) :
  let s := run imread gs (AnnotationTool_init sz) in
  Dict.wf (annotations s) /\
  Forall (fun item => centroids (snd item) <> []) (annotations s) /\
  marked (annotations s) = Z.of_nat (List.length (annotations s)) /\
  marked_count s = Z.of_nat (total_centroids (annotations s)) /\
  Z.of_nat (List.length (write_rows (annotations s))) = marked_count s + 1.
Proof.
  intros s.
  assert (Hs : store_ok s).
  { apply run_invariant; [intros g s0; apply dispatch_store_ok|].
    unfold store_ok; cbn. repeat split; constructor. }
  destruct Hs as (Hwf & Hne & Hcount).
  split; [exact Hwf|]. split; [exact Hne|]. split; [|split; [exact Hcount|]].
  - rewrite marked_count_entries by exact Hwf. now rewrite count_entries_all.
  - rewrite write_rows_spec, length_export_rows, Hcount. lia.
Qed.

(* ================================================================== *)
(** * The three places that show the zoom *)

Lemma set_zoom_widgets (value : Z) (s : AnnotationTool) :
  exists s' ev,
    set_zoom value s = (inr tt, s', ev) /\
    zoom_of s' = Z.max 10 (Z.min 500 value) /\
    zoom_slider s' = zoom_slider s /\
    zoom_label s' = zoom_label s.
Proof.
  destruct (set_zoom_run value s) as (s' & ev & E & Z1 & Z2).
  exists s', ev. repeat split; try assumption.
  assert (P : preserves zoom_label (set_zoom value)) by preserves_tac.
  specialize (P s). now rewrite E in P.
Qed.

Lemma on_zoom_changed_widgets (value : Z) (s : AnnotationTool) :
  exists s' ev,
    on_zoom_changed value s = (inr tt, s', ev) /\
    zoom_of s' = Z.max 10 (Z.min 500 value) /\
    zoom_slider s' = zoom_slider s /\
    zoom_label s' = (Py.str value ++ "%")%string.
Proof.
  unfold on_zoom_changed, bind, modify.
  destruct (set_zoom_widgets value s) as (s1 & ev & E & Z1 & Z2 & _).
  rewrite E. eexists _, _. split; [reflexivity|]. cbn. auto.
Qed.

Lemma zoom_slider_setValue_widgets (value : Z) (s : AnnotationTool) :
  let v := Z.max 10 (Z.min 500 value) in
  exists s' ev,
    zoom_slider_setValue value s = (inr tt, s', ev) /\
    zoom_slider s' = v /\
    (v = zoom_slider s -> s' = s) /\
    (v <> zoom_slider s ->
     zoom_of s' = v /\ zoom_label s' = (Py.str v ++ "%")%string).
Proof.
  intros v. unfold zoom_slider_setValue. rewrite bind_get. fold v.
  destruct (v =? zoom_slider s) eqn:E.
  - apply Z.eqb_eq in E. exists s, []. split; [reflexivity|].
    split; [symmetry; exact E|]. split; [reflexivity|].
    intros Hne. contradiction.
  - apply Z.eqb_neq in E. rewrite bind_modify.
    destruct (on_zoom_changed_widgets v (set_zoom_slider v s))
      as (s1 & ev & E1 & Z1 & Z2 & Z3).
    exists s1, ev. split; [exact E1|]. split; [exact Z2|].
    split; [intros H; contradiction|]. intros _. split; [|exact Z3].
    rewrite Z1. unfold v. lia.
Qed.

(** After [adjust_zoom] and after [zoom_to_fit] the three agree, whatever
    they were before. *)
Lemma zoom_set_through_slider (new_zoom : Z) (s : AnnotationTool) :
  10 <= new_zoom <= 500 ->
  zoom_widgets_agree
    (state ((zoom_slider_setValue new_zoom ;; set_zoom new_zoom ;;
             modify (set_zoom_label (Py.str new_zoom ++ "%"))) s)).
Proof.
  intros Hr. unfold bind.
  destruct (zoom_slider_setValue_widgets new_zoom s) as (s1 & ev1 & E1 & S1 & _).
  rewrite E1.
  destruct (set_zoom_widgets new_zoom s1) as (s2 & ev2 & E2 & Z2 & S2 & _).
  rewrite E2. unfold modify, state, zoom_widgets_agree, zoom_of in *. cbn.
  rewrite Z2, S2, S1.
  replace (Z.max 10 (Z.min 500 new_zoom)) with new_zoom by lia. auto.
Qed.

Lemma dispatch_zoom_widgets (imread : string -> option (Z * Z)) (g : Gesture)
    (s : AnnotationTool) :
  zoom_widgets_agree s -> zoom_widgets_agree (state (dispatch imread g s)).
Proof.
  intros Hs.
  assert (K : preserves (fun s => (zoom_of s, zoom_slider s, zoom_label s))
                (dispatch imread g) -> 
              zoom_widgets_agree (state (dispatch imread g s))).
  { intros P. specialize (P s). cbv beta in P. inversion P as [[P1 P2 P3]].
    unfold zoom_widgets_agree in *. now rewrite P1, P2, P3. }
  destruct g as [zi|b pos|v| | | |row|d l|p e| ];
    try (apply K; solve [preserves_tac]).
  - cbn [dispatch]. unfold adjust_zoom. rewrite bind_get.
    apply zoom_set_through_slider. destruct zi; lia.
  - cbn [dispatch].
    destruct (zoom_slider_setValue_widgets v s) as (s1 & ev & E & S1 & Same & Diff).
    rewrite E. unfold state; cbn [fst snd].
    destruct (Z.eq_dec (Z.max 10 (Z.min 500 v)) (zoom_slider s)) as [Heq|Hne].
    + now rewrite (Same Heq).
    + destruct (Diff Hne) as [D1 D2]. unfold zoom_widgets_agree.
      now rewrite S1, D1, D2.
  - cbn [dispatch]. unfold zoom_to_fit.
    apply (zoom_set_through_slider 100). lia.
Qed.

(** X8.  After any sequence of gestures from a new window the slider, the
    zoom the label draws with and the percentage text agree: the slider
    value is the zoom, and the text is that number followed by a percent
    sign. *)
Theorem zoom_widgets_after_any_gestures
    (imread : string -> option (Z * Z)) (gs : list Gesture) (sz : Qt.QSize) :
  let s := run imread gs (AnnotationTool_init sz) in
  zoom_slider s = _zoom (image_label s) /\
  zoom_label s = (Py.str (_zoom (image_label s)) ++ "%")%string.
Proof.
  intros s.
  assert (H : zoom_widgets_agree s).
  { apply run_invariant; [intros g s0; apply dispatch_zoom_widgets|].
    split; reflexivity. }
  exact H.
Qed.

(* ================================================================== *)
(** * Steps of the zoom *)

(** X9.  A step in and a step back out give the zoom before when there was
    room for the step in (zoom at most 480), and a step out and back in
    when there was room for the step out (zoom at least 30).  At the ends
    the two steps do not cancel: from more than 480 in-then-out ends at
    480, from less than 30 out-then-in ends at 30. *)
Theorem zoom_steps_compose (s : AnnotationTool) :
  10 <= zoom_of s <= 500 ->
  let in_out := zoom_of (state (adjust_zoom false (state (adjust_zoom true s)))) in
  let out_in := zoom_of (state (adjust_zoom true (state (adjust_zoom false s)))) in
  (zoom_of s <= 480 -> in_out = zoom_of s) /\
  (480 < zoom_of s -> in_out = 480) /\
  (30 <= zoom_of s -> out_in = zoom_of s) /\
  (zoom_of s < 30 -> out_in = 30).
Proof.
  intros Hr in_out out_in. subst in_out out_in.
  destruct (adjust_zoom_run true s) as (s1 & ev1 & E1 & Z1).
  destruct (adjust_zoom_run false s) as (s2 & ev2 & E2 & Z2).
  assert (A1 : state (adjust_zoom true s) = s1) by (now rewrite E1).
  assert (A2 : state (adjust_zoom false s) = s2) by (now rewrite E2).
  rewrite A1, A2.
  destruct (adjust_zoom_run false s1) as (s3 & ev3 & E3 & Z3).
  destruct (adjust_zoom_run true s2) as (s4 & ev4 & E4 & Z4).
  assert (A3 : state (adjust_zoom false s1) = s3) by (now rewrite E3).
  assert (A4 : state (adjust_zoom true s2) = s4) by (now rewrite E4).
  rewrite A3, A4, Z3, Z4, Z1, Z2. repeat split; lia.
Qed.

Lemma zoom_steps_compose_witness :
  let s := state (set_zoom 490 demo_session) in
  10 <= zoom_of s <= 500 /\
  480 < zoom_of s /\
  zoom_of (state (adjust_zoom false (state (adjust_zoom true s)))) = 480 /\
  zoom_of (state (adjust_zoom true (state (adjust_zoom false s)))) = zoom_of s.
Proof.
  intros s.
  assert (H : 10 <= zoom_of s <= 500) by (vm_compute; split; discriminate).
  assert (H1 : 480 < zoom_of s) by (vm_compute; reflexivity).
  assert (H2 : 30 <= zoom_of s) by (vm_compute; discriminate).
  destruct (zoom_steps_compose s H) as (_ & K2 & K3 & _).
  split; [exact H|]. split; [exact H1|]. split; [exact (K2 H1) | exact (K3 H2)].
Defined.

(** X10.  Only a wheel turn with a positive vertical angle zooms in.  A turn
    with a negative angle, and also one whose vertical angle is zero (a
    sideways turn), zooms out by 20, not below 10. *)
Theorem wheel_zooms_in_only_for_positive_angle (angle_delta_y : Z)
    (s : AnnotationTool) :
  10 <= zoom_of s <= 500 ->
  (0 < angle_delta_y ->
   zoom_of (state (wheelEvent angle_delta_y s)) = Z.min 500 (zoom_of s + 20)) /\
  (angle_delta_y <= 0 ->
   zoom_of (state (wheelEvent angle_delta_y s)) = Z.max 10 (zoom_of s - 20)).
Proof.
  intros Hr. unfold wheelEvent.
  destruct (adjust_zoom_run (0 <? angle_delta_y) s) as (s1 & ev & E & Z1).
  rewrite E. unfold state. cbn [fst snd]. rewrite Z1.
  split; intros H.
  - apply Z.ltb_lt in H. rewrite H. lia.
  - apply Z.ltb_ge in H. rewrite H. lia.
Qed.

Lemma wheel_zooms_in_only_for_positive_angle_witness :
  10 <= zoom_of demo_session <= 500 /\
  0 <= 0 /\
  zoom_of (state (wheelEvent 0 demo_session)) = Z.max 10 (zoom_of demo_session - 20).
Proof.
  assert (H : 10 <= zoom_of demo_session <= 500) by (vm_compute; split; discriminate).
  assert (H0 : 0 <= 0) by lia.
  split; [exact H|]. split; [exact H0|].
  exact (proj2 (wheel_zooms_in_only_for_positive_angle 0 demo_session H) H0).
Defined.

(* ================================================================== *)
(** * The rendered rectangle *)

Lemma int_bounded (q : Q) (n : Z) :
  (0 <= q)%Q -> (q <= inject_Z n)%Q -> 0 <= Py.int q <= n.
Proof.
  intros H0 Hn. destruct (int_nonneg_bounds q H0) as [Ilo Ihi].
  assert (A : (-1 < inject_Z (Py.int q))%Q) by lra.
  assert (B : (inject_Z (Py.int q) <= inject_Z n)%Q) by lra.
  unfold Qlt, Qle, inject_Z in A, B; cbn in A, B. lia.
Qed.

(** The rendered extent along one axis at a zoom of at most 100. *)
Lemma rendered_extent_fits (label_extent image_extent zoom : Z) (scale : Q) :
  0 < image_extent -> 0 <= zoom <= 100 ->
  (0 <= scale)%Q ->
  (scale <= inject_Z label_extent / inject_Z image_extent)%Q ->
  0 <= Py.int (inject_Z image_extent * scale * zoom_factor_of zoom) <= label_extent.
Proof.
  intros Hi Hz Hs0 Hs.
  assert (I0 : (0 < inject_Z image_extent)%Q) by (unfold Qlt, inject_Z; cbn; lia).
  assert (Z0 : (0 <= zoom_factor_of zoom)%Q).
  { unfold zoom_factor_of. apply Qle_shift_div_l; [lra|].
    assert (0 <= inject_Z zoom)%Q by (apply inject_Z_nonneg; lia). lra. }
  assert (Z1 : (zoom_factor_of zoom <= 1)%Q).
  { unfold zoom_factor_of. apply Qle_shift_div_r; [lra|].
    assert (inject_Z zoom <= inject_Z 100)%Q by (rewrite <- Zle_Qle; lia).
    change (inject_Z 100) with 100%Q in H. lra. }
  assert (A0 : (0 <= inject_Z image_extent * scale)%Q)
    by (apply Qmult_le_0_compat; lra).
  assert (A1 : (inject_Z image_extent * scale <= inject_Z label_extent)%Q).
  { setoid_replace (inject_Z label_extent)
      with (inject_Z image_extent * (inject_Z label_extent / inject_Z image_extent))%Q
      by (field; lra).
    rewrite (Qmult_comm _ scale), (Qmult_comm _ (_ / _)).
    apply Qmult_le_compat_r; lra. }
  apply int_bounded.
  - apply Qmult_le_0_compat; assumption.
  - assert (P : (0 <= inject_Z image_extent * scale * (1 - zoom_factor_of zoom))%Q)
      by (apply Qmult_le_0_compat; lra).
    lra.
Qed.

(** X11.  While an image is shown in a label of non-negative size at a zoom
    of at most 100, the rectangle that [update_display] computes lies
    inside the label, so the image is not cropped; at every zoom the
    rectangle is centred in the label. *)
Theorem rendered_image_fits_label (s : AnnotationTool) (height width : Z) :
  original_image s = Some (height, width) ->
  0 < width -> 0 < height ->
  0 <= Qt.width (size (image_label s)) ->
  0 <= Qt.height (size (image_label s)) ->
  let rect := _image_rect (image_label (state (update_display s))) in
  let label_size := size (image_label s) in
  (Qt.x rect + Qt.w rect / 2 == inject_Z (Qt.width label_size) / 2)%Q /\
  (Qt.y rect + Qt.h rect / 2 == inject_Z (Qt.height label_size) / 2)%Q /\
  (0 <= _zoom (image_label s) <= 100 ->
   (0 <= Qt.x rect)%Q /\ (0 <= Qt.y rect)%Q /\
   (0 <= Qt.w rect)%Q /\ (0 <= Qt.h rect)%Q /\
   (Qt.x rect + Qt.w rect <= inject_Z (Qt.width label_size))%Q /\
   (Qt.y rect + Qt.h rect <= inject_Z (Qt.height label_size))%Q).
Proof.
  intros Himg Hw Hh Hlw Hlh rect label_size.
  destruct (update_display_transform s height width Himg) as (_ & _ & E3 & _).
  subst rect. rewrite E3. fold label_size. cbn [Qt.x Qt.y Qt.w Qt.h].
  set (scale := Qmin _ _).
  set (zf := zoom_factor_of _).
  set (sw := Py.int (inject_Z width * scale * zf)).
  set (sh := Py.int (inject_Z height * scale * zf)).
  split; [rewrite inject_Z_sub; field|].
  split; [rewrite inject_Z_sub; field|].
  intros Hz.
  assert (W0 : (0 < inject_Z width)%Q) by (unfold Qlt, inject_Z; cbn; lia).
  assert (H0 : (0 < inject_Z height)%Q) by (unfold Qlt, inject_Z; cbn; lia).
  assert (Qw : (0 <= inject_Z (Qt.width label_size) / inject_Z width)%Q).
  { apply Qle_shift_div_l; [exact W0|].
    assert (0 <= inject_Z (Qt.width label_size))%Q by (apply inject_Z_nonneg; exact Hlw).
    lra. }
  assert (Qh : (0 <= inject_Z (Qt.height label_size) / inject_Z height)%Q).
  { apply Qle_shift_div_l; [exact H0|].
    assert (0 <= inject_Z (Qt.height label_size))%Q by (apply inject_Z_nonneg; exact Hlh).
    lra. }
  assert (S0 : (0 <= scale)%Q) by (unfold scale; apply Q.min_glb; assumption).
  assert (Sw : (scale <= inject_Z (Qt.width label_size) / inject_Z width)%Q)
    by (unfold scale; apply Q.le_min_l).
  assert (Sh : (scale <= inject_Z (Qt.height label_size) / inject_Z height)%Q)
    by (unfold scale; apply Q.le_min_r).
  pose proof (rendered_extent_fits (Qt.width label_size) width
                (_zoom (image_label s)) scale Hw Hz S0 Sw) as Bw.
  pose proof (rendered_extent_fits (Qt.height label_size) height
                (_zoom (image_label s)) scale Hh Hz S0 Sh) as Bh.
  fold zf in Bw, Bh. fold sw in Bw. fold sh in Bh.
  assert (Iw0 : (0 <= inject_Z sw)%Q) by (apply inject_Z_nonneg; lia).
  assert (Ih0 : (0 <= inject_Z sh)%Q) by (apply inject_Z_nonneg; lia).
  assert (Iw1 : (inject_Z sw <= inject_Z (Qt.width label_size))%Q)
    by (rewrite <- Zle_Qle; lia).
  assert (Ih1 : (inject_Z sh <= inject_Z (Qt.height label_size))%Q)
    by (rewrite <- Zle_Qle; lia).
  rewrite !inject_Z_sub.
  generalize dependent (inject_Z sw). generalize dependent (inject_Z sh).
  generalize (inject_Z (Qt.width label_size)) (inject_Z (Qt.height label_size)).
  intros lw lh qh Qh0 Qh1 qw Qw0 Qw1.
  clear - Qh0 Qh1 Qw0 Qw1.
  setoid_replace ((lw - qw) / 2)%Q with ((lw - qw) * (1 # 2))%Q by field.
  setoid_replace ((lh - qh) / 2)%Q with ((lh - qh) * (1 # 2))%Q by field.
  repeat split; lra.
Qed.

Lemma rendered_image_fits_label_witness :
  let s := state (set_zoom 50 small_label_session) in
  let rect := _image_rect (image_label (state (update_display s))) in
  original_image s = Some (1024, 1024) /\
  0 <= _zoom (image_label s) <= 100 /\
  (0 <= Qt.x rect)%Q /\
  (Qt.x rect + Qt.w rect <= inject_Z (Qt.width (size (image_label s))))%Q.
Proof.
  intros s rect.
  assert (H1 : original_image s = Some (1024, 1024)) by (vm_compute; reflexivity).
  assert (H2 : 0 < 1024) by lia.
  assert (H3 : 0 <= Qt.width (size (image_label s))) by (vm_compute; discriminate).
  assert (H4 : 0 <= Qt.height (size (image_label s))) by (vm_compute; discriminate).
  assert (H5 : 0 <= _zoom (image_label s) <= 100) by (vm_compute; split; discriminate).
  destruct (rendered_image_fits_label s 1024 1024 H1 H2 H2 H3 H4) as (_ & _ & K).
  destruct (K H5) as (K1 & _ & _ & _ & K5 & _).
  split; [exact H1|]. split; [exact H5|]. split; [exact K1 | exact K5].
Defined.

(** X12.  Drawing again changes nothing: a second [update_display] leaves
    the object as the first left it and paints the same overlay. *)
Theorem update_display_idempotent (s : AnnotationTool) :
  let s1 := state (update_display s) in
  state (update_display s1) = s1 /\
  events (update_display s1) = events (update_display s).
Proof.
  unfold update_display, bind, get, modify, emit, ret, state, events.
  destruct (original_image s) as [[height width]|] eqn:Himg; cbn.
  - rewrite Himg. cbn. split; reflexivity.
  - rewrite Himg. split; reflexivity.
Qed.

(* ================================================================== *)
(** * What a left click can do *)

(** X13.  On a drawn image a left click either does nothing at all (no
    change of the object, no event, no exception) or appends exactly one
    vertex (x, y) with 0 <= x <= width and 0 <= y <= height to the pending
    polygon.  It does nothing when the position is outside the closed
    rendered rectangle, and also when the rendered image is empty. *)
Theorem handle_click_outcome (s : AnnotationTool) (height width : Z)
    (pos : Z * Z) :
  original_image s = Some (height, width) ->
  original_width s = width -> original_height s = height ->
  0 < width -> 0 < height ->
  let s' := state (update_display s) in
  let rect := _image_rect (image_label s') in
  let px := inject_Z (fst pos) in
  let py := inject_Z (snd pos) in
  (handle_click pos s' = (inr tt, s', [])
   \/ exists x y,
        result (handle_click pos s') = inr tt /\
        current_polygon (state (handle_click pos s'))
          = current_polygon s' ++ [(x, y)] /\
        0 <= x <= width /\ 0 <= y <= height) /\
  ((px < Qt.x rect \/ Qt.x rect + Qt.w rect < px \/
    py < Qt.y rect \/ Qt.y rect + Qt.h rect < py)%Q ->
   handle_click pos s' = (inr tt, s', [])) /\
  ((Qt.w rect <= 0)%Q \/ (Qt.h rect <= 0)%Q ->
   handle_click pos s' = (inr tt, s', [])).
Proof.
  intros Himg HW HH Hw Hh s' rect px py.
  destruct (update_display_transform s height width Himg)
    as (_ & _ & E3 & E4 & E5 & E6).
  fold s' in E3, E4, E5, E6. fold rect in E3.
  set (sw := Py.int _) in E3, E4. set (sh := Py.int _) in E3, E4.
  assert (Rw : Qt.w rect = inject_Z sw) by (now rewrite E3).
  assert (Rh : Qt.h rect = inject_Z sh) by (now rewrite E3).
  unfold handle_click. rewrite bind_get. rewrite E4.
  unfold Qt.scaled. cbn [Qt.isNull]. fold rect. rewrite E5, E6, HW, HH.
  fold px. fold py.
  destruct ((sw <=? 0) || (sh <=? 0)) eqn:Enull.
  - repeat split; auto.
  - apply orb_false_iff in Enull. destruct Enull as [Nw Nh].
    apply Z.leb_gt in Nw, Nh.
    assert (Pw : (0 < Qt.w rect)%Q) by (rewrite Rw; unfold Qlt, inject_Z; cbn; lia).
    assert (Ph : (0 < Qt.h rect)%Q) by (rewrite Rh; unfold Qlt, inject_Z; cbn; lia).
    split; [|split].
    + destruct (click_to_original rect width height px py) as [[x y]|] eqn:C;
        [|now left].
      right. exists x, y.
      destruct (add_polygon_point_spec x y s') as (A1 & A2 & _).
      destruct (click_accepted_bounds rect width height px py (x, y) Pw Ph Hw Hh C)
        as (B1 & B2 & _).
      cbn [fst snd] in B1, B2. auto.
    + intros Hout. now rewrite (click_outside_ignored rect width height px py Pw Ph Hout).
    + intros [Hz|Hz]; exfalso; lra.
Qed.

Lemma handle_click_outcome_witness :
  let s' := state (update_display demo_session) in
  let rect := _image_rect (image_label s') in
  original_image demo_session = Some (100, 100) /\
  (inject_Z 99 < Qt.x rect)%Q /\
  handle_click (99, 350) s' = (inr tt, s', []).
Proof.
  intros s' rect.
  assert (H1 : original_image demo_session = Some (100, 100)) by reflexivity.
  assert (H2 : original_width demo_session = 100) by reflexivity.
  assert (H3 : original_height demo_session = 100) by reflexivity.
  assert (H4 : 0 < 100) by lia.
  assert (H5 : (inject_Z 99 < Qt.x rect)%Q) by (vm_compute; reflexivity).
  destruct (handle_click_outcome demo_session 100 100 (99, 350) H1 H2 H3 H4 H4)
    as (_ & K & _).
  split; [exact H1|]. split; [exact H5|].
  apply K. left. exact H5.
Defined.

(* ================================================================== *)
(** * Loading and navigation *)

Lemma getitem_in_range {A : Type} (l : list A) (i : Z) (d : A) :
  0 <= i < Z.of_nat (List.length l) ->
  Py.getitem l i = inr (nth (Z.to_nat i) l d).
Proof.
  intros H. unfold Py.getitem.
  destruct (i <? 0) eqn:E1; [apply Z.ltb_lt in E1; lia|]. rewrite E1.
  destruct (Z.of_nat (List.length l) <=? i) eqn:E2; [apply Z.leb_le in E2; lia|].
  cbn [orb].
  destruct (nth_error l (Z.to_nat i)) as [a|] eqn:E3.
  - now rewrite (nth_error_nth _ _ d E3).
  - apply nth_error_None in E3. lia.
Qed.

Lemma bind_lift_ok {A B : Type} (a : A) (k : A -> M B) (s : AnnotationTool) :
  bind (lift (inr a)) k s = k a s.
Proof. unfold bind, lift. destruct (k a s) as [[r s2] ev]. reflexivity. Qed.

Lemma bind_lift_error {A B : Type} (e : Py.Exception) (k : A -> M B)
    (s : AnnotationTool) :
  bind (lift (inl e)) k s = (inl e, s, []).
Proof. reflexivity. Qed.

Lemma state_bind_emit {B : Type} (e : Event) (k : unit -> M B) (s : AnnotationTool) :
  state (bind (emit e) k s) = state (k tt s).
Proof. now rewrite bind_emit. Qed.

Lemma result_bind_emit {B : Type} (e : Event) (k : unit -> M B) (s : AnnotationTool) :
  result (bind (emit e) k s) = result (k tt s).
Proof. now rewrite bind_emit. Qed.

Lemma events_bind_emit {B : Type} (e : Event) (k : unit -> M B) (s : AnnotationTool) :
  events (bind (emit e) k s) = e :: events (k tt s).
Proof. now rewrite bind_emit. Qed.

Section NeverRaises.

Context {A B : Type}.

Lemma never_raises_ret (a : A) : never_raises (ret a).
Proof. intros s. now exists a. Qed.

Lemma never_raises_get : never_raises get.
Proof. intros s. now exists s. Qed.

Lemma never_raises_emit (e : Event) : never_raises (emit e).
Proof. intros s. now exists tt. Qed.

Lemma never_raises_modify (g : AnnotationTool -> AnnotationTool) :
  never_raises (modify g).
Proof. intros s. now exists tt. Qed.

Lemma never_raises_lift (a : A) : never_raises (lift (inr a)).
Proof. intros s. now exists a. Qed.

Lemma never_raises_bind (m : M A) (k : A -> M B) :
  never_raises m -> (forall a, never_raises (k a)) -> never_raises (bind m k).
Proof.
  intros Hm Hk s. unfold bind. destruct (Hm s) as [a Ha].
  destruct (m s) as [[r s1] ev1]. unfold result in Ha. cbn in Ha. subst r.
  destruct (Hk a s1) as [b Hb].
  destruct (k a s1) as [[r2 s2] ev2]. unfold result in *. cbn in *.
  now exists b.
Qed.

End NeverRaises.

Lemma never_raises_update_display : never_raises update_display.
Proof.
  intros s. exists tt. now destruct (update_display_frame s) as (R & _).
Qed.

Lemma never_raises_unit (m : M unit) (s : AnnotationTool) :
  never_raises m -> result (m s) = inr tt.
Proof. intros H. destruct (H s) as [[] E]. exact E. Qed.

Ltac never_raises_step :=
  lazymatch goal with
  | |- never_raises (bind _ _) => apply never_raises_bind; [|intros ?]
  | |- never_raises (ret _) => apply never_raises_ret
  | |- never_raises get => apply never_raises_get
  | |- never_raises (emit _) => apply never_raises_emit
  | |- never_raises (lift (inr _)) => apply never_raises_lift
  | |- never_raises (modify _) => apply never_raises_modify
  | |- never_raises update_display => apply never_raises_update_display
  | |- never_raises (match ?x with _ => _ end) => destruct x
  end.

Ltac never_raises_tac :=
  repeat (cbv beta zeta;
          first [ never_raises_step
                | progress unfold update_marked_count, add_polygon_point,
                    handle_click, clear_current, save_centroids, set_zoom,
                    on_zoom_changed, zoom_slider_setValue, adjust_zoom,
                    zoom_to_fit, wheelEvent ]).

(** What [load_current_image] does in each of its three cases. *)
Lemma load_current_image_cases (imread : string -> option (Z * Z))
    (s : AnnotationTool) :
  let i := current_index s in
  let n := Z.of_nat (List.length (image_paths s)) in
  (~ (0 <= i < n) -> load_current_image imread s = (inr tt, s, [])) /\
  (forall path,
      0 <= i < n -> Py.getitem (image_paths s) i = inr path ->
      imread path = None ->
      load_current_image imread s
      = (inr tt, s,
         [cv2_imread path;
          QMessageBox_warning "错误" ("无法加载图片: " ++ path)])) /\
  (forall path img,
      0 <= i < n -> Py.getitem (image_paths s) i = inr path ->
      imread path = Some img ->
      result (load_current_image imread s) = inr tt /\
      session_view (state (load_current_image imread s))
      = ([], None, Some img, snd img, fst img, store_of s, image_paths s,
         current_index s) /\
      In (cv2_imread path) (events (load_current_image imread s))).
Proof.
  intros i n. unfold load_current_image. rewrite bind_get. fold i. fold n.
  split; [|split].
  - intros H. destruct ((0 <=? i) && (i <? n)) eqn:E; [|reflexivity].
    apply andb_true_iff in E. destruct E as [E1 E2].
    apply Z.leb_le in E1. apply Z.ltb_lt in E2. lia.
  - intros path Hr Hp Him.
    replace ((0 <=? i) && (i <? n)) with true
      by (symmetry; apply andb_true_iff; split;
          [apply Z.leb_le | apply Z.ltb_lt]; lia).
    unfold bind, lift, emit. rewrite Hp, Him. reflexivity.
  - intros path img Hr Hp Him.
    replace ((0 <=? i) && (i <? n)) with true
      by (symmetry; apply andb_true_iff; split;
          [apply Z.leb_le | apply Z.ltb_lt]; lia).
    rewrite Hp, bind_lift_ok.
    rewrite result_bind_emit, state_bind_emit, events_bind_emit, Him.
    rewrite !bind_modify.
    set (k := update_display ;; _).
    set (s1 := set_current_centroid None _).
    split; [|split; [|now left]].
    + apply never_raises_unit. unfold k. never_raises_tac.
    + assert (P : preserves session_view k) by (unfold k; preserves_tac).
      rewrite P. reflexivity.
Qed.

(** X14.  [load_current_image] leaves the object exactly as it is when the
    current index is outside the list (it then does nothing at all) and
    when the file cannot be decoded (it then reads the file and warns).  In
    particular a failed load keeps the image shown before, its size, the
    pending polygon and the centroid preview. *)
Theorem load_failure_changes_nothing (imread : string -> option (Z * Z))
    (s : AnnotationTool) :
  (~ (0 <= current_index s < Z.of_nat (List.length (image_paths s))) ->
   load_current_image imread s = (inr tt, s, [])) /\
  (forall path,
      0 <= current_index s < Z.of_nat (List.length (image_paths s)) ->
      Py.getitem (image_paths s) (current_index s) = inr path ->
      imread path = None ->
      load_current_image imread s
      = (inr tt, s,
         [cv2_imread path;
          QMessageBox_warning "错误" ("无法加载图片: " ++ path)])).
Proof.
  destruct (load_current_image_cases imread s) as (A & B & _). split; assumption.
Qed.

Lemma load_failure_changes_nothing_witness :
  let s := set_current_index 1 two_pending in
  0 <= current_index s < Z.of_nat (List.length (image_paths s)) /\
  Py.getitem (image_paths s) (current_index s) = inr "/data/b.PNG"%string /\
  state (load_current_image (fun _ => None) s) = s /\
  current_polygon (state (load_current_image (fun _ => None) s)) = [(0, 0); (10, 0)].
Proof.
  intros s.
  assert (H1 : 0 <= current_index s < Z.of_nat (List.length (image_paths s)))
    by (vm_compute; split; [discriminate | reflexivity]).
  assert (H2 : Py.getitem (image_paths s) (current_index s) = inr "/data/b.PNG"%string)
    by (vm_compute; reflexivity).
  pose proof (proj2 (load_failure_changes_nothing (fun _ => None) s)
                _ H1 H2 eq_refl) as K.
  split; [exact H1|]. split; [exact H2|]. rewrite K. split; reflexivity.
Defined.

(** X15.  When the current file decodes, [load_current_image] returns
    normally with the pending polygon emptied, the centroid preview
    removed and the image size taken from the decoded image (width from the
    second component of the shape, height from the first); the store, the
    image list and the current index are as before. *)
Theorem load_success_resets_polygon (imread : string -> option (Z * Z))
    (s : AnnotationTool) (path : string) (img : Z * Z) :
  0 <= current_index s < Z.of_nat (List.length (image_paths s)) ->
  Py.getitem (image_paths s) (current_index s) = inr path ->
  imread path = Some img ->
  let r := load_current_image imread s in
  result r = inr tt /\
  current_polygon (state r) = [] /\
  current_centroid (state r) = None /\
  original_image (state r) = Some img /\
  original_width (state r) = snd img /\
  original_height (state r) = fst img /\
  annotations (state r) = annotations s /\
  marked_count (state r) = marked_count s /\
  image_paths (state r) = image_paths s /\
  current_index (state r) = current_index s.
Proof.
  intros Hr Hp Him r. subst r.
  destruct (load_current_image_cases imread s) as (_ & _ & C).
  destruct (C path img Hr Hp Him) as (R & V & _).
  unfold session_view, store_of in V. inversion V. repeat split; assumption.
Qed.

Lemma load_success_resets_polygon_witness :
  let s := set_current_index 1 two_pending_with_centroid in
  let r := load_current_image demo_imread s in
  0 <= current_index s < Z.of_nat (List.length (image_paths s)) /\
  Py.getitem (image_paths s) (current_index s) = inr "/data/b.PNG"%string /\
  demo_imread "/data/b.PNG" = Some (1024, 1024) /\
  current_polygon (state r) = [] /\
  current_centroid (state r) = None /\
  annotations (state r) = annotations s.
Proof.
  intros s r.
  assert (H1 : 0 <= current_index s < Z.of_nat (List.length (image_paths s)))
    by (vm_compute; split; [discriminate | reflexivity]).
  assert (H2 : Py.getitem (image_paths s) (current_index s) = inr "/data/b.PNG"%string)
    by (vm_compute; reflexivity).
  assert (H3 : demo_imread "/data/b.PNG" = Some (1024, 1024)) by reflexivity.
  destruct (load_success_resets_polygon demo_imread s _ _ H1 H2 H3)
    as (_ & K2 & K3 & _ & _ & _ & K7 & _).
  split; [exact H1|]. split; [exact H2|]. split; [exact H3|].
  split; [exact K2|]. split; [exact K3 | exact K7].
Defined.

(** X16.  On a list that is not empty [prev_image] moves the index to
    [max(0, i - 1)] and [next_image] to [min(n - 1, i + 1)], whether or not
    the image at the new index decodes: an index inside the list stays
    inside, the first image has no predecessor and the last no successor,
    and there is no wrap-around. *)
Theorem navigation_clamps (imread : string -> option (Z * Z))
    (s : AnnotationTool) :
  image_paths s <> [] ->
  let n := Z.of_nat (List.length (image_paths s)) in
  let i := current_index s in
  let p := current_index (state (prev_image imread s)) in
  let q := current_index (state (next_image imread s)) in
  p = Z.max 0 (i - 1) /\
  q = Z.min (n - 1) (i + 1) /\
  (0 <= i < n -> 0 <= p < n /\ 0 <= q < n) /\
  (i = 0 -> p = 0) /\
  (i = n - 1 -> q = n - 1).
Proof.
  intros Hne n i p q.
  assert (P : preserves current_index (load_current_image imread)) by preserves_tac.
  assert (Ep : p = Z.max 0 (i - 1)).
  { subst p. unfold prev_image. rewrite bind_get.
    destruct (image_paths s) as [|f fs]; [contradiction|].
    rewrite bind_modify, P. reflexivity. }
  assert (Eq : q = Z.min (n - 1) (i + 1)).
  { subst q n. unfold next_image. rewrite bind_get.
    destruct (image_paths s) as [|f fs]; [contradiction|].
    rewrite bind_modify, P. reflexivity. }
  assert (Hn : 0 < n).
  { subst n. destruct (image_paths s); [contradiction|]. cbn. lia. }
  rewrite Ep, Eq. repeat split; lia.
Qed.

Lemma navigation_clamps_witness :
  let s := demo_session in
  image_paths s <> [] /\
  current_index (state (prev_image demo_imread s)) = Z.max 0 (current_index s - 1) /\
  current_index (state (next_image demo_imread s))
    = Z.min (Z.of_nat (List.length (image_paths s)) - 1) (current_index s + 1).
Proof.
  intros s.
  assert (H : image_paths s <> []) by (intros E; discriminate E).
  destruct (navigation_clamps demo_imread s H) as (K1 & K2 & _).
  split; [exact H|]. split; [exact K1 | exact K2].
Defined.

(* ================================================================== *)
(** * Exceptions *)

Lemma never_raises_load_current_image (imread : string -> option (Z * Z)) :
  never_raises (load_current_image imread).
Proof.
  intros s. exists tt.
  destruct (load_current_image_cases imread s) as (A & B & C).
  set (i := current_index s) in *.
  set (n := Z.of_nat (List.length (image_paths s))) in *.
  destruct (Z_le_dec 0 i) as [H0|H0]; [|rewrite A by lia; reflexivity].
  destruct (Z_lt_dec i n) as [H1|H1]; [|rewrite A by lia; reflexivity].
  assert (Hr : 0 <= i < n) by lia.
  pose proof (getitem_in_range (image_paths s) i ""%string Hr) as Hp.
  destruct (imread (nth (Z.to_nat i) (image_paths s) ""%string)) as [img|] eqn:Him.
  - now destruct (C _ img Hr Hp Him) as (R & _).
  - now rewrite (B _ Hr Hp Him).
Qed.

Ltac never_raises_nav :=
  repeat (cbv beta zeta;
          first [ apply never_raises_load_current_image
                | never_raises_step
                | progress unfold update_marked_count, add_polygon_point,
                    handle_click, clear_current, save_centroids, set_zoom,
                    on_zoom_changed, zoom_slider_setValue, adjust_zoom,
                    zoom_to_fit, wheelEvent, prev_image, next_image,
                    load_selected_image, open_image_folder ]).



(** X18.  With three or more pending vertices and no image path at the
    current index, [finish_polygon] raises the [IndexError] of the list
    access before it changes anything: the object is as before and no
    event has happened.  This is the case whenever the image list is
    empty. *)
Theorem finish_polygon_index_error (s : AnnotationTool) :
  3 <= Z.of_nat (List.length (current_polygon s)) ->
  (forall e, Py.getitem (image_paths s) (current_index s) = inl e ->
             finish_polygon s = (inl e, s, [])) /\
  (image_paths s = [] -> finish_polygon s = (inl Py.IndexError, s, [])).
Proof.
  intros Hlen.
  assert (G : forall e, Py.getitem (image_paths s) (current_index s) = inl e ->
                        finish_polygon s = (inl e, s, [])).
  { intros e He. unfold finish_polygon. rewrite bind_get.
    apply Z.ltb_ge in Hlen. rewrite Hlen, He. reflexivity. }
  split; [exact G|].
  intros Hnil. apply G. unfold Py.getitem. rewrite Hnil. cbn [List.length Z.of_nat].
  destruct (current_index s <? 0) eqn:E.
  - apply Z.ltb_lt in E.
    replace (current_index s + 0 <? 0) with true by (symmetry; apply Z.ltb_lt; lia).
    reflexivity.
  - apply Z.ltb_ge in E. rewrite (proj2 (Z.ltb_ge _ _) E).
    replace (0 <=? current_index s) with true by (symmetry; apply Z.leb_le; lia).
    reflexivity.
Qed.

Lemma finish_polygon_index_error_witness :
  let s := run demo_imread
             [open_folder "/empty" ["notes.txt"]%string;
              mouse LeftButton (100, 0); mouse LeftButton (170, 0);
              mouse LeftButton (170, 70)]
             demo_session in
  3 <= Z.of_nat (List.length (current_polygon s)) /\
  image_paths s = [] /\
  finish_polygon s = (inl Py.IndexError, s, []).
Proof.
  intros s.
  assert (H1 : 3 <= Z.of_nat (List.length (current_polygon s)))
    by (vm_compute; discriminate).
  assert (H2 : image_paths s = []) by (vm_compute; reflexivity).
  split; [exact H1|]. split; [exact H2|].
  exact (proj2 (finish_polygon_index_error s H1) H2).
Defined.

(* ================================================================== *)
(** * Opening a folder *)

Lemma bind_run {A B : Type} (m : M A) (k : A -> M B) (s s1 : AnnotationTool)
    (a : A) (ev : list Event) :
  m s = (inr a, s1, ev) ->
  bind m k s = (result (k a s1), state (k a s1), ev ++ events (k a s1)).
Proof.
  intros E. unfold bind, result, state, events. rewrite E.
  destruct (k a s1) as [[r s2] ev2]. reflexivity.
Qed.

Lemma state_bind_result {A B : Type} (m : M A) (k : A -> M B)
    (s : AnnotationTool) (a : A) :
  result (m s) = inr a -> state (bind m k s) = state (k a (state (m s))).
Proof.
  unfold bind, result, state. destruct (m s) as [[r s1] ev1]. cbn.
  intros ->. destruct (k a s1) as [[r2 s2] ev2]. reflexivity.
Qed.

Lemma filter_is_image_file (listing : list string) :
  filter (fun f => Py.endswith_any (Py.lower f) image_suffixes) listing
  = filter is_image_file listing.
Proof. reflexivity. Qed.

(** X19.  [open_image_folder] does nothing at all when the dialog is
    cancelled.  When the chosen folder holds no file with an image suffix
    it warns and empties the image list, and leaves everything else as it
    was: the store, the current index, the image on the label and the
    pending polygon of the earlier session are still there. *)
Theorem open_folder_without_images (imread : string -> option (Z * Z))
    (dir_path : string) (listing : list string) (s : AnnotationTool) :
  (dir_path = ""%string ->
   open_image_folder imread dir_path listing s = (inr tt, s, [])) /\
  (dir_path <> ""%string -> filter is_image_file listing = [] ->
   open_image_folder imread dir_path listing s
   = (inr tt, set_image_paths [] s,
      [QMessageBox_warning "警告" "未找到支持的图片文件！"])).
Proof.
  unfold open_image_folder. split.
  - intros ->. reflexivity.
  - intros Hd Hf. apply String.eqb_neq in Hd. rewrite Hd.
    rewrite filter_is_image_file, Hf. reflexivity.
Qed.

Lemma open_folder_without_images_witness :
  "/empty"%string <> ""%string /\
  filter is_image_file ["notes.txt"; "png"; "a.png.bak"]%string = [] /\
  current_polygon
    (state (open_image_folder demo_imread "/empty"
              ["notes.txt"; "png"; "a.png.bak"]%string two_pending_with_centroid))
  = [(1, 1); (2, 2)] /\
  image_paths
    (state (open_image_folder demo_imread "/empty"
              ["notes.txt"; "png"; "a.png.bak"]%string two_pending_with_centroid))
  = [].
Proof.
  assert (H1 : "/empty"%string <> ""%string) by (intros E; discriminate E).
  assert (H2 : filter is_image_file ["notes.txt"; "png"; "a.png.bak"]%string = [])
    by (vm_compute; reflexivity).
  pose proof (proj2 (open_folder_without_images demo_imread "/empty" _
                       two_pending_with_centroid) H1 H2) as K.
  split; [exact H1|]. split; [exact H2|]. rewrite K. split; reflexivity.
Defined.

(** X20.  When the chosen folder holds image files, [open_image_folder]
    makes the list the joined paths of those files in listing order, sets
    the index to 0 and empties the store and its counter.  The pending
    polygon and the centroid preview are emptied only when the first file
    decodes; when it does not, they and the image of the earlier session
    stay. *)
Theorem open_folder_with_images (imread : string -> option (Z * Z))
    (dir_path : string) (listing : list string) (s : AnnotationTool)
    (f : string) (fs : list string) :
  dir_path <> ""%string ->
  filter is_image_file listing = f :: fs ->
  let r := open_image_folder imread dir_path listing s in
  result r = inr tt /\
  image_paths (state r) = map (Py.join dir_path) (f :: fs) /\
  current_index (state r) = 0 /\
  annotations (state r) = [] /\
  marked_count (state r) = 0 /\
  (forall img, imread (Py.join dir_path f) = Some img ->
     current_polygon (state r) = [] /\ current_centroid (state r) = None /\
     original_image (state r) = Some img) /\
  (imread (Py.join dir_path f) = None ->
     current_polygon (state r) = current_polygon s /\
     current_centroid (state r) = current_centroid s /\
     original_image (state r) = original_image s).
Proof.
  intros Hd Hf r.
  assert (R : result r = inr tt).
  { subst r. apply never_raises_unit. never_raises_nav. }
  split; [exact R|]. subst r. clear R.
  unfold open_image_folder. apply String.eqb_neq in Hd. rewrite Hd.
  rewrite filter_is_image_file, Hf, bind_modify, bind_get.
  cbn [image_paths set_image_paths map]. rewrite !bind_modify.
  set (s3 := set_marked_count 0 _).
  assert (Hr : 0 <= current_index s3 < Z.of_nat (List.length (image_paths s3)))
    by (cbn; lia).
  assert (Hp : Py.getitem (image_paths s3) (current_index s3)
               = inr (Py.join dir_path f)) by reflexivity.
  assert (P : preserves session_view update_marked_count) by preserves_tac.
  destruct (load_current_image_cases imread s3) as (_ & B & C).
  destruct (imread (Py.join dir_path f)) as [img|] eqn:Him.
  - destruct (C _ img Hr Hp Him) as (R & V & _).
    rewrite (state_bind_result _ _ _ tt R).
    specialize (P (state (load_current_image imread s3))).
    rewrite V in P. unfold session_view, store_of in P.
    injection P as Q1 Q2 Q3 Q4 Q5 Q6 Q7 Q8 Q9.
    split; [exact Q8|]. split; [exact Q9|]. split; [exact Q6|].
    split; [exact Q7|]. split.
    + intros img' E. inversion E; subst. repeat split; assumption.
    + intros E. discriminate E.
  - rewrite (bind_run _ _ _ _ _ _ (B _ Hr Hp Him)).
    unfold update_marked_count. rewrite bind_get.
    unfold modify, state. cbn [fst snd].
    split; [reflexivity|]. split; [reflexivity|]. split; [reflexivity|].
    split; [reflexivity|]. split.
    + intros img E. discriminate E.
    + intros _. repeat split; reflexivity.
Qed.

Lemma open_folder_with_images_witness :
  let r := open_image_folder demo_imread "/data"
             ["notes.txt"; "b.PNG"; "a.png"]%string two_pending_with_centroid in
  "/data"%string <> ""%string /\
  filter is_image_file ["notes.txt"; "b.PNG"; "a.png"]%string = ["b.PNG"; "a.png"]%string /\
  image_paths (state r) = map (Py.join "/data") ["b.PNG"; "a.png"]%string /\
  annotations (state r) = [] /\
  current_index (state r) = 0.
Proof.
  intros r.
  assert (H1 : "/data"%string <> ""%string) by (intros E; discriminate E).
  assert (H2 : filter is_image_file ["notes.txt"; "b.PNG"; "a.png"]%string
               = ["b.PNG"; "a.png"]%string) by (vm_compute; reflexivity).
  destruct (open_folder_with_images demo_imread "/data" _ two_pending_with_centroid
              _ _ H1 H2) as (_ & K2 & K3 & K4 & _).
  split; [exact H1|]. split; [exact H2|]. split; [exact K2|].
  split; [exact K4 | exact K3].
Defined.

(* ================================================================== *)
(** * Export and bookkeeping *)


(** X22.  One more centroid is one more exported row, and its place is
    fixed by the order of first recording: for an image that has no entry
    yet the row goes to the very end; for an image that has one the row
    goes directly behind the rows of that image, before the rows of every
    image entered later. *)
Theorem export_after_record (filename : string) (c : Z * Z) :
  (forall ann : Dict.t Entry,
      Dict.mem filename ann = false ->
      write_rows (record filename c ann)
      = write_rows ann ++ [[PyStr filename; PyInt (fst c); PyInt (snd c)]]) /\
  (forall (front back : Dict.t Entry) (e : Entry),
      Dict.mem filename front = false ->
      write_rows (record filename c (front ++ (filename, e) :: back))
      = write_rows (front ++ [(filename, e)])
          ++ [[PyStr filename; PyInt (fst c); PyInt (snd c)]]
          ++ write_entries back []).
Proof.
  split.
  - intros ann H. rewrite !write_rows_spec. now apply export_rows_record_new.
  - intros front back e H. rewrite !write_rows_spec, write_entries_spec.
    cbn [app]. now apply export_rows_record_split.
Qed.

Lemma export_after_record_witness :
  Dict.mem "a.png" ([] : Dict.t Entry) = false /\
  Dict.mem "a.png" [("z.png"%string, mkEntry [(9, 9)])] = false /\
  write_rows (record "a.png" (7, 8) example_store)
  = write_rows [("a.png"%string, mkEntry [(1, 2)])]
      ++ [[PyStr "a.png"; PyInt 7; PyInt 8]]
      ++ write_entries [("b.png"%string, mkEntry [(3, 4); (5, 6)])] [] /\
  write_rows (record "a.png" (7, 8) [("z.png"%string, mkEntry [(9, 9)])])
  = write_rows [("z.png"%string, mkEntry [(9, 9)])]
      ++ [[PyStr "a.png"; PyInt 7; PyInt 8]].
Proof.
  assert (H1 : Dict.mem "a.png" ([] : Dict.t Entry) = false) by reflexivity.
  assert (H2 : Dict.mem "a.png" [("z.png"%string, mkEntry [(9, 9)])] = false)
    by reflexivity.
  destruct (export_after_record "a.png" (7, 8)) as [K1 K2].
  split; [exact H1|]. split; [exact H2|]. split.
  - exact (K2 [] [("b.png"%string, mkEntry [(3, 4); (5, 6)])] (mkEntry [(1, 2)]) H1).
  - exact (K1 _ H2).
Defined.

Lemma state_tuple {A : Type} (r : Py.Exception + A) (x : AnnotationTool)
    (ev : list Event) : state (r, x, ev) = x.
Proof. reflexivity. Qed.

Lemma events_tuple {A : Type} (r : Py.Exception + A) (x : AnnotationTool)
    (ev : list Event) : events (r, x, ev) = ev.
Proof. reflexivity. Qed.

(** The run of a successful [finish_polygon], up to the redraw. *)
Lemma finish_polygon_run (s : AnnotationTool) (path : string) :
  3 <= Z.of_nat (List.length (current_polygon s)) ->
  Py.getitem (image_paths s) (current_index s) = inr path ->
  let c := calculate_centroid (current_polygon s) in
  let ann := record (Py.basename path) c (annotations s) in
  let s1 :=
    set_current_polygon []
      (set_marked_label
         ("已标注: " ++ Py.str (marked ann) ++ "/"
            ++ Py.str (Z.of_nat (List.length (image_paths s))))
         (set_marked_count (marked_count s + 1)
            (set_annotations ann (set_current_centroid (Some c) s)))) in
  finish_polygon s
  = (inr tt, state (update_display s1),
     statusBar_showMessage
       ("已保存形心: (" ++ Py.str (fst c) ++ ", " ++ Py.str (snd c) ++ ")")
       :: events (update_display s1)
       ++ (if auto_advance s then [QTimer_singleShot 1000 slot_next_image] else [])).
Proof.
  intros Hlen Hp c ann s1.
  unfold finish_polygon, bind, get, lift, modify, emit, update_marked_count.
  apply Z.ltb_ge in Hlen. rewrite Hlen, Hp.
  cbn -[calculate_centroid record Py.basename Py.str String.append update_display marked].
  fold c. fold ann. fold s1.
  destruct (update_display_frame s1) as (R & _).
  destruct (update_display s1) as [[res s2] ev].
  unfold result, state, events in *. cbn [fst snd] in *. subst res.
  destruct (auto_advance s); reflexivity.
Qed.

(** X23.  A successful [finish_polygon] raises the counter by one, sets the
    marked label to the number of entries with a centroid over the number
    of images, shows the saved centroid in the status bar, redraws, and
    then starts the one-second timer for [next_image] exactly once when
    auto advance is on and not at all when it is off. *)
Theorem finish_polygon_bookkeeping (s : AnnotationTool) (path : string) :
  3 <= Z.of_nat (List.length (current_polygon s)) ->
  Py.getitem (image_paths s) (current_index s) = inr path ->
  let r := finish_polygon s in
  let c := calculate_centroid (current_polygon s) in
  marked_count (state r) = marked_count s + 1 /\
  marked_label (state r)
  = ("已标注: " ++ Py.str (marked (annotations (state r))) ++ "/"
       ++ Py.str (Z.of_nat (List.length (image_paths s))))%string /\
  exists painted_events,
    Forall (fun e => exists pts pc, e = painted pts pc) painted_events /\
    events r
    = statusBar_showMessage
        ("已保存形心: (" ++ Py.str (fst c) ++ ", " ++ Py.str (snd c) ++ ")")
        :: painted_events
        ++ (if auto_advance s then [QTimer_singleShot 1000 slot_next_image] else []).
Proof.
  intros Hlen Hp r c. subst r.
  rewrite (finish_polygon_run s path Hlen Hp). fold c.
  set (ann := record (Py.basename path) c (annotations s)).
  set (s1 := set_current_polygon [] _).
  rewrite !state_tuple, events_tuple.
  assert (Pm : preserves (fun s => (marked_count s, marked_label s, annotations s))
                 update_display) by preserves_update_display.
  specialize (Pm s1). cbv beta in Pm. injection Pm as Q1 Q2 Q3.
  destruct (update_display_frame s1) as (_ & _ & Pe).
  split; [exact Q1|]. split; [rewrite Q3; exact Q2|].
  exists (events (update_display s1)). split; [|reflexivity].
  apply Forall_forall. exact Pe.
Qed.

Lemma finish_polygon_bookkeeping_witness :
  let s := add_points [(10, 10)] two_pending in
  3 <= Z.of_nat (List.length (current_polygon s)) /\
  Py.getitem (image_paths s) (current_index s) = inr "/data/a.png"%string /\
  marked_count (state (finish_polygon s)) = marked_count s + 1.
Proof.
  intros s.
  assert (H1 : 3 <= Z.of_nat (List.length (current_polygon s)))
    by (vm_compute; discriminate).
  assert (H2 : Py.getitem (image_paths s) (current_index s) = inr "/data/a.png"%string)
    by (vm_compute; reflexivity).
  destruct (finish_polygon_bookkeeping s _ H1 H2) as (K & _).
  split; [exact H1|]. split; [exact H2 | exact K].
Defined.

(** X24.  [clear_current] empties the pending polygon and removes the
    centroid preview without touching the store, the list or the index;
    a right click directly after it can only warn that three points are
    needed, and records nothing. *)
Theorem clear_then_finish_warns (s : AnnotationTool) :
  let s1 := state (clear_current s) in
  result (clear_current s) = inr tt /\
  current_polygon s1 = [] /\
  current_centroid s1 = None /\
  annotations s1 = annotations s /\
  marked_count s1 = marked_count s /\
  image_paths s1 = image_paths s /\
  current_index s1 = current_index s /\
  finish_polygon s1 = (inr tt, s1, [insufficient_vertices]).
Proof.
  intros s1.
  assert (R : result (clear_current s) = inr tt)
    by (apply never_raises_unit; never_raises_tac).
  assert (V : session_view s1
              = ([], None, original_image s, original_width s, original_height s,
                 store_of s, image_paths s, current_index s)).
  { subst s1. unfold clear_current. rewrite !bind_modify.
    assert (P : preserves session_view update_display) by preserves_update_display.
    rewrite P. reflexivity. }
  unfold session_view, store_of in V.
  injection V as Q1 Q2 Q3 Q4 Q5 Q6 Q7 Q8 Q9.
  split; [exact R|]. split; [exact Q1|]. split; [exact Q2|].
  split; [exact Q6|]. split; [exact Q7|]. split; [exact Q8|]. split; [exact Q9|].
  apply finish_polygon_too_few. rewrite Q1. cbn. lia.
Qed.

(* ================================================================== *)
(** * The list of images *)

Lemma image_files_init (files : list string) :
  image_files (ImageListModel_init (Some files)) = files.
Proof. now destruct files. Qed.

(** X25.  The list model built from the paths that [open_image_folder]
    collects has one row per accepted file, in listing order, and shows in
    row i the i-th accepted file name itself, the name under which
    [finish_polygon] stores the centroids of that image; for a row outside
    the list the display text raises [IndexError]. *)
Theorem list_model_shows_file_names (dir_path : string) (listing : list string) :
  Forall slash_free listing ->
  let names := filter is_image_file listing in
  let paths := map (Py.join dir_path) names in
  let model := ImageListModel_init (Some paths) in
  rowCount model = Z.of_nat (List.length names) /\
  (forall row,
      0 <= row < rowCount model ->
      data model row DisplayRole
      = inr (variant_str (nth (Z.to_nat row) names ""%string)) /\
      Py.getitem paths row
      = inr (Py.join dir_path (nth (Z.to_nat row) names ""%string))) /\
  (forall row, rowCount model <= row -> data model row DisplayRole = inl Py.IndexError).
Proof.
  intros Hall names paths model.
  assert (Ef : image_files model = paths) by apply image_files_init.
  assert (El : List.length paths = List.length names) by apply length_map.
  unfold rowCount, data. rewrite Ef, El.
  split; [reflexivity|]. split.
  - intros row Hr.
    assert (Hr' : 0 <= row < Z.of_nat (List.length paths)) by lia.
    rewrite (getitem_in_range paths row (Py.join dir_path "") Hr').
    unfold paths at 1 2. rewrite map_nth.
    split; [|reflexivity]. f_equal. f_equal.
    apply basename_join.
    assert (Hin : In (nth (Z.to_nat row) names ""%string) names)
      by (apply nth_In; lia).
    unfold names in Hin. apply filter_In in Hin.
    rewrite Forall_forall in Hall. apply Hall. tauto.
  - intros row Hr. unfold Py.getitem.
    destruct (row <? 0) eqn:E; [apply Z.ltb_lt in E; lia|]. rewrite E.
    replace (Z.of_nat (List.length paths) <=? row) with true
      by (symmetry; apply Z.leb_le; lia).
    reflexivity.
Qed.

Lemma list_model_shows_file_names_witness :
  let listing := ["notes.txt"; "b.PNG"; "a.png"]%string in
  let model := ImageListModel_init
                 (Some (map (Py.join "/data") (filter is_image_file listing))) in
  Forall slash_free listing /\
  0 <= 1 < rowCount model /\
  data model 1 DisplayRole
  = inr (variant_str (nth (Z.to_nat 1) (filter is_image_file listing) ""%string)).
Proof.
  intros listing model.
  assert (H : Forall slash_free listing) by (repeat constructor).
  assert (H1 : 0 <= 1 < rowCount model) by (vm_compute; split; [discriminate | reflexivity]).
  destruct (list_model_shows_file_names "/data" listing H) as (_ & K & _).
  split; [exact H|]. split; [exact H1|]. exact (proj1 (K 1 H1)).
Defined.
